(** * MADAP chronoamperometry analysis: [madap/echem/voltammetry/voltammetry_CA.py]

    A shallow embedding of the class [Voltammetry_CA]: the cumulative-charge
    integration, the sliding-window best-linear-fit search, the Cottrell
    diffusion coefficient and the reaction-order classifier.

    Numbers.  The arrays are numpy [float64] arrays.  The algorithms are
    written once, over an interface [Scalar] that lists the arithmetic the
    source uses, and are run at two instances:
    - [float_scalar]: IEEE 754 binary64 (Rocq's primitive floats), with NaN,
      signed infinities and rounding, executable;
    - [R_scalar]: the real numbers, for statements about exact arithmetic.

    Exceptions.  A Python call either returns a value or raises; [outcome]
    records which.  numpy signals a division by zero, [log] of a non-positive
    number and the like with a warning and a NaN or an infinity, not with an
    exception.

    External code.  [scipy.stats.linregress] is not part of the repository.
    The search is parameterised by it ([regression]), and every general
    theorem holds for any routine; [linregress] is a model of scipy's routine
    used to run examples.  The base class [Voltammetry] is not in the sources
    either; the constructor takes its initialiser as a parameter. *)

From Stdlib Require Import String.
From Stdlib Require Import ZArith List Bool Lia.
From Stdlib Require Import Floats.
From Stdlib Require Import Reals Lra.
Import ListNotations.

Set Implicit Arguments.
Local Open Scope Z_scope.

(** ** Python outcomes *)

Inductive exn : Type :=
| ValueError (msg : string)
| ZeroDivisionError (msg : string).

Inductive outcome (A : Type) : Type :=
| Returns (a : A)
| Raises (e : exn).

Arguments Returns {A} a.
Arguments Raises {A} e.

Definition bind {A B : Type} (c : outcome A) (k : A -> outcome B) : outcome B :=
  match c with
  | Returns a => k a
  | Raises e => Raises e
  end.

Notation "x <- c ;; k" := (bind c (fun x => k))
  (at level 61, c at next level, right associativity).
Notation "' p <- c ;; k" := (bind c (fun x => let 'p := x in k))
  (at level 61, p pattern, c at next level, right associativity).

(** ** The arithmetic of the source *)

(** What the source does with numbers: conversion of a Python [int], the four
    operations, unary minus, [np.sqrt], [np.log], the comparisons [>] and
    [==], and the constants [np.pi] and scipy's Faraday constant. *)
Class Scalar (F : Type) : Type := {
  of_Z : Z -> F;
  fadd : F -> F -> F;
  fsub : F -> F -> F;
  fmul : F -> F -> F;
  fdiv : F -> F -> F;
  fneg : F -> F;
  fsqrt : F -> F;
  flog : F -> F;
  fgt : F -> F -> bool;
  feq : F -> F -> bool;
  fpi : F;
  faraday_constant : F
}.

(** ** Python and numpy helpers *)

Section Sequences.
Context {A : Type}.

(** Normalisation of one bound of a slice of a sequence of length [len]:
    a negative bound counts from the end, and bounds are clamped. *)
Definition py_bound (len i : Z) : Z :=
  if i <? 0 then Z.max 0 (i + len) else Z.min i len.

(** [l[start:stop]] *)
Definition py_slice (l : list A) (start stop : Z) : list A :=
  let len := Z.of_nat (length l) in
  let lo := py_bound len start in
  let hi := py_bound len stop in
  firstn (Z.to_nat (hi - lo)) (skipn (Z.to_nat lo) l).

(** [l[1:]] *)
Definition from1 (l : list A) : list A := py_slice l 1 (Z.of_nat (length l)).

Fixpoint zip_with (op : A -> A -> A) (a b : list A) : list A :=
  match a, b with
  | u :: a', v :: b' => op u v :: zip_with op a' b'
  | _, _ => []
  end.
End Sequences.

(** [range(n)] *)
Definition py_range (n : Z) : list Z := map Z.of_nat (seq 0 (Z.to_nat n)).

Section Numpy.
Context {F : Type} `{Scalar F}.

(** [np.diff(a)], that is [a[1:] - a[:-1]]. *)
Definition np_diff (a : list F) : list F :=
  zip_with fsub (tl a) (removelast a).

(** Elementwise product of two one-dimensional arrays, with numpy's
    broadcasting: equal lengths, or one of the two of length one. *)
Definition np_mul (a b : list F) : outcome (list F) :=
  if Nat.eqb (length a) (length b) then Returns (zip_with fmul a b)
  else match a, b with
       | _, [v] => Returns (map (fun u => fmul u v) a)
       | [u], _ => Returns (map (fun v => fmul u v) b)
       | _, _ => Raises (ValueError "operands could not be broadcast together")
       end.

(** [np.diff(time) * current[1:]] when the two series have one length. *)
Definition interval_charges (time current : list F) : list F :=
  zip_with fmul (np_diff time) (tl current).

(** [np.insert(a, 0, 0)] *)
Definition np_insert_zero (a : list F) : list F := of_Z 0 :: a.

Fixpoint cumsum_from (acc : F) (a : list F) : list F :=
  match a with
  | [] => []
  | v :: a' => let acc' := fadd acc v in acc' :: cumsum_from acc' a'
  end.

(** [np.cumsum(a)]: the first element is [a[0]], each next one adds one
    element to the previous sum. *)
Definition np_cumsum (a : list F) : list F :=
  match a with
  | [] => []
  | v :: a' => v :: cumsum_from v a'
  end.
End Numpy.

(** ** The two instances *)

Module Float64.
(** Conversion of a Python [int], rounded to nearest. *)
Definition of_int (z : Z) : float :=
  SF2Prim (binary_normalize prec emax z 0 false).

Definition ln2 : float := 0x1.62e42fefa39efp-1%float.
Definition sqrt_half : float := 0x1.6a09e667f3bcdp-1%float.

(** [1/(2k+1)] for [k] from [n] down to 0, for the series of [atanh]. *)
Fixpoint atanh_series (n : nat) (s2 acc : float) : float :=
  let c := (1 / of_int (2 * Z.of_nat n + 1))%float in
  match n with
  | O => (c + s2 * acc)%float
  | S n' => atanh_series n' s2 (c + s2 * acc)%float
  end.

(** [np.log] on one [float64].  The special cases are numpy's: the
    logarithm of NaN or of a negative number is NaN, of zero minus
    infinity, of plus infinity plus infinity, of one exactly zero.  For the
    other arguments [x = m * 2^e] with [m] near one and
    [log x = e * log 2 + 2 * atanh ((m - 1) / (m + 1))]; numpy calls the C
    library, whose result can differ from this one in the last bits. *)
Definition log (x : float) : float :=
  if PrimFloat.is_nan x then nan
  else if (x <? 0)%float then nan
  else if (x =? 0)%float then neg_infinity
  else if (x =? infinity)%float then infinity
  else
    let (m0, e0) := Z.frexp x in
    let (m, e) := if (m0 <? sqrt_half)%float
                  then ((2 * m0)%float, e0 - 1) else (m0, e0) in
    let s := ((m - 1) / (m + 1))%float in
    (of_int e * ln2 + 2 * s * atanh_series 12 (s * s) 0)%float.
End Float64.

(** numpy's [float64]. [np.pi] is [3.141592653589793] and scipy's (CODATA
    2018) Faraday constant [96485.33212]. *)
#[export] Instance float_scalar : Scalar float := {
  of_Z := Float64.of_int;
  fadd := PrimFloat.add;
  fsub := PrimFloat.sub;
  fmul := PrimFloat.mul;
  fdiv := PrimFloat.div;
  fneg := PrimFloat.opp;
  fsqrt := PrimFloat.sqrt;
  flog := Float64.log;
  fgt := fun a b => PrimFloat.ltb b a;
  feq := PrimFloat.eqb;
  fpi := 0x1.921fb54442d18p+1%float;
  faraday_constant := 0x1.78e55505d0fa6p+16%float
}.

(** Exact real arithmetic.  Division by zero, the square root of a negative
    number and the logarithm of a non-positive number have the library's
    conventional values; no statement below uses them. *)
#[export] Instance R_scalar : Scalar R := {
  of_Z := IZR;
  fadd := Rplus;
  fsub := Rminus;
  fmul := Rmult;
  fdiv := Rdiv;
  fneg := Ropp;
  fsqrt := sqrt;
  flog := ln;
  fgt := fun a b => if Rlt_dec b a then true else false;
  feq := fun a b => if Req_dec_T a b then true else false;
  fpi := PI;
  faraday_constant := 96485.33212%R
}.

(** ** The object *)

(** A number held in the dictionary [best_fit]: the Python [int] of the
    initial dictionary, or a [float64] computed by the regression. *)
Inductive pynum (F : Type) : Type :=
| PyInt (z : Z)
| NpFloat (v : F).

Arguments PyInt {F} z.
Arguments NpFloat {F} v.

Definition value {F : Type} `{Scalar F} (p : pynum F) : F :=
  match p with
  | PyInt z => of_Z z
  | NpFloat v => v
  end.

(** Unary minus: on an [int] it gives an [int]. *)
Definition py_neg {F : Type} `{Scalar F} (p : pynum F) : pynum F :=
  match p with
  | PyInt z => PyInt (- z)
  | NpFloat v => NpFloat (fneg v)
  end.

(** The dictionary [best_fit]. *)
Record fit (F : Type) : Type := {
  start : Z;
  end_ : Z;
  r_squared : pynum F;
  slope : pynum F;
  intercept : pynum F
}.

(** What the base class [Voltammetry] leaves in the object. *)
Record Voltammetry (F : Type) : Type := {
  base_voltage : list F;
  base_current : list F;
  base_time : list F;
  base_number_of_electrons : Z
}.

(** The command-line arguments [args], already parsed: [float(...)] and
    [int(...)] are applied to numbers. *)
Record arguments (F : Type) : Type := {
  measured_current_units : string;
  measured_time_units : string;
  arg_number_of_electrons : Z;
  arg_applied_voltage : F;
  arg_mass_of_active_material : option F;
  arg_area_of_active_material : option F;
  arg_concentration_of_active_material : option F;
  arg_window_size : option Z
}.

(** The attributes of a [Voltammetry_CA] object.  An attribute holding
    Python's [None] is [None] here. *)
Record Voltammetry_CA (F : Type) : Type := {
  voltage : list F;
  current : list F;
  time : list F;
  number_of_electrons : Z;
  applied_voltage : F;
  np_time : list F;
  np_current : list F;
  cumulative_charge : option (list F);
  mass_of_active_material : option F;
  area_of_active_material : F;
  concentration_of_active_material : F;
  window_size : Z;
  diffusion_coefficient : option F;
  reaction_order : option Z;
  reaction_rate_constant : option (pynum F)
}.

Section Assignments.
Context {F : Type}.

(** [self.cumulative_charge = q] *)
Definition set_cumulative_charge (q : option (list F)) (self : Voltammetry_CA F) :=
  {| voltage := voltage self; current := current self; time := time self;
     number_of_electrons := number_of_electrons self;
     applied_voltage := applied_voltage self;
     np_time := np_time self; np_current := np_current self;
     cumulative_charge := q;
     mass_of_active_material := mass_of_active_material self;
     area_of_active_material := area_of_active_material self;
     concentration_of_active_material := concentration_of_active_material self;
     window_size := window_size self;
     diffusion_coefficient := diffusion_coefficient self;
     reaction_order := reaction_order self;
     reaction_rate_constant := reaction_rate_constant self |}.

(** [self.diffusion_coefficient = d] *)
Definition set_diffusion_coefficient (d : option F) (self : Voltammetry_CA F) :=
  {| voltage := voltage self; current := current self; time := time self;
     number_of_electrons := number_of_electrons self;
     applied_voltage := applied_voltage self;
     np_time := np_time self; np_current := np_current self;
     cumulative_charge := cumulative_charge self;
     mass_of_active_material := mass_of_active_material self;
     area_of_active_material := area_of_active_material self;
     concentration_of_active_material := concentration_of_active_material self;
     window_size := window_size self;
     diffusion_coefficient := d;
     reaction_order := reaction_order self;
     reaction_rate_constant := reaction_rate_constant self |}.

(** [self.reaction_order = o; self.reaction_rate_constant = k] *)
Definition set_kinetics (o : Z) (k : pynum F) (self : Voltammetry_CA F) :=
  {| voltage := voltage self; current := current self; time := time self;
     number_of_electrons := number_of_electrons self;
     applied_voltage := applied_voltage self;
     np_time := np_time self; np_current := np_current self;
     cumulative_charge := cumulative_charge self;
     mass_of_active_material := mass_of_active_material self;
     area_of_active_material := area_of_active_material self;
     concentration_of_active_material := concentration_of_active_material self;
     window_size := window_size self;
     diffusion_coefficient := diffusion_coefficient self;
     reaction_order := Some o;
     reaction_rate_constant := Some k |}.
End Assignments.

(** ** The methods *)

Section Methods.
Context {F : Type} `{Scalar F}.

(** [scipy.stats.linregress(x, y)], as far as the source reads its result:
    slope, intercept and [r_value]. *)
Variable regression : list F -> list F -> outcome (F * F * F).

(** [_calculate_charge]: the new object and the value the call returns.
    The method has no [return] statement, so the call returns [None]. *)
Definition _calculate_charge (self : Voltammetry_CA F)
  : outcome (Voltammetry_CA F * option (list F)) :=
  let delta_t := np_diff (np_time self) in
  interval_charges <- np_mul delta_t (from1 (np_current self)) ;;
  Returns (set_cumulative_charge
             (Some (np_cumsum (np_insert_zero interval_charges))) self,
           None).

(** The dictionary the search starts from. *)
Definition initial_fit (w : Z) : fit F :=
  {| start := 0; end_ := w;
     r_squared := PyInt 0; slope := PyInt 0; intercept := PyInt 0 |}.

(** The regression of the window that starts at [s], as the dictionary
    the loop body would store. [r_value**2] is one multiplication. *)
Definition window_fit (x_data y_data : list F) (w s : Z) : outcome (fit F) :=
  let e := s + w in
  ' (sl, ic, r_value) <- regression (py_slice x_data s e) (py_slice y_data s e) ;;
  Returns {| start := s; end_ := e;
             r_squared := NpFloat (fmul r_value r_value);
             slope := NpFloat sl; intercept := NpFloat ic |}.

(** One turn of the loop: [best_fit.update(...)] when the window's
    [r_squared] is strictly greater. *)
Definition loop_body (x_data y_data : list F) (w : Z) (best_fit : fit F) (s : Z)
  : outcome (fit F) :=
  candidate <- window_fit x_data y_data w s ;;
  if fgt (value (r_squared candidate)) (value (r_squared best_fit))
  then Returns candidate
  else Returns best_fit.

Fixpoint for_each (x_data y_data : list F) (w : Z) (starts : list Z)
         (best_fit : fit F) : outcome (fit F) :=
  match starts with
  | [] => Returns best_fit
  | s :: rest =>
      best_fit' <- loop_body x_data y_data w best_fit s ;;
      for_each x_data y_data w rest best_fit'
  end.

(** [_analyze_best_linear_fit] *)
Definition _analyze_best_linear_fit (self : Voltammetry_CA F)
           (x_data y_data : list F) : outcome (fit F) :=
  let w := window_size self in
  for_each x_data y_data w
           (py_range (Z.of_nat (length x_data) - w + 1))
           (initial_fit w).

(** The divisor of the Cottrell relation, a Python [float]:
    [n ** 2 * faraday ** 2 * area ** 2 * concentration ** 2]. *)
Definition cottrell_divisor (self : Voltammetry_CA F) : F :=
  let n := number_of_electrons self in
  let a := area_of_active_material self in
  let c := concentration_of_active_material self in
  fmul (fmul (fmul (of_Z (n * n)) (fmul faraday_constant faraday_constant))
             (fmul a a))
       (fmul c c).

(** [_calculate_diffusion_coefficient].  When the slope is the [int] of
    the initial dictionary the quotient is a division of Python floats,
    which raises on a zero divisor; when it is a [float64] numpy divides. *)
Definition _calculate_diffusion_coefficient (self : Voltammetry_CA F)
  : outcome (Voltammetry_CA F) :=
  let t_inv_sqrt := map (fun t => fsqrt (fdiv (of_Z 1) t)) (from1 (np_time self)) in
  best_fit <- _analyze_best_linear_fit self t_inv_sqrt (from1 (np_current self)) ;;
  let divisor := cottrell_divisor self in
  match slope best_fit with
  | PyInt z =>
      if feq divisor (of_Z 0)
      then Raises (ZeroDivisionError "float division by zero")
      else Returns (set_diffusion_coefficient
                      (Some (fdiv (fmul (of_Z (z * z)) fpi) divisor)) self)
  | NpFloat sl =>
      Returns (set_diffusion_coefficient
                 (Some (fdiv (fmul (fmul sl sl) fpi) divisor)) self)
  end.

(** [_analyze_reaction_kinetics] *)
Definition _analyze_reaction_kinetics (self : Voltammetry_CA F)
  : outcome (Voltammetry_CA F) :=
  first_order_fit <-
    _analyze_best_linear_fit self (from1 (np_time self))
                             (map flog (from1 (np_current self))) ;;
  second_order_fit <-
    _analyze_best_linear_fit self (from1 (np_time self))
                             (map (fun i => fdiv (of_Z 1) i) (from1 (np_current self))) ;;
  if fgt (value (r_squared first_order_fit)) (value (r_squared second_order_fit))
  then Returns (set_kinetics 1 (py_neg (slope first_order_fit)) self)
  else Returns (set_kinetics 2 (slope second_order_fit) self).

(** The initialiser of the base class, which is not in the sources: it
    stores the three series (after its unit conversions) and the number of
    electrons. *)
Variable Voltammetry__init__ :
  list F -> list F -> list F -> string -> string -> Z -> outcome (Voltammetry F).

(** [__init__].  The attributes assigned after [cumulative_charge] do not
    depend on it; they are written in the record at once, and
    [cumulative_charge], not yet assigned, starts as [None]. *)
Definition __init__ (current0 voltage0 time0 : list F) (args : arguments F)
           (charge : option (list F)) : outcome (Voltammetry_CA F) :=
  base <- Voltammetry__init__ voltage0 current0 time0
            (measured_current_units args) (measured_time_units args)
            (arg_number_of_electrons args) ;;
  let self :=
    {| voltage := base_voltage base; current := base_current base;
       time := base_time base;
       number_of_electrons := base_number_of_electrons base;
       applied_voltage := arg_applied_voltage args;
       np_time := base_time base;
       np_current := base_current base;
       cumulative_charge := None;
       mass_of_active_material := arg_mass_of_active_material args;
       area_of_active_material :=
         match arg_area_of_active_material args with
         | Some a => a
         | None => of_Z 1
         end;
       concentration_of_active_material :=
         match arg_concentration_of_active_material args with
         | Some c => c
         | None => of_Z 1
         end;
       window_size :=
         match arg_window_size args with
         | Some w => w
         | None => 10
         end;
       diffusion_coefficient := None;
       reaction_order := None;
       reaction_rate_constant := None |} in
  match charge with
  | None =>
      ' (self', returned) <- _calculate_charge self ;;
      Returns (set_cumulative_charge returned self')
  | Some q => Returns (set_cumulative_charge (Some q) self)
  end.
End Methods.

(** ** A model of [scipy.stats.linregress]

    The routine is external to the repository.  This model follows scipy's
    implementation: the two checks that raise [ValueError], the means, the
    covariance matrix of [np.cov(x, y, bias=1)], the correlation coefficient
    (zero when a variance is zero, clipped to [[-1, 1]]), slope and
    intercept.  Sums run from left to right. *)

Section Linregress.
Context {F : Type} `{Scalar F}.

Definition np_isnan (v : F) : bool := negb (feq v v).

(** [np.amax] and [np.amin] of a non-empty array: a NaN wins. *)
Definition np_amax (a : list F) : F :=
  fold_left (fun m v => if np_isnan m then m else if np_isnan v then v
                        else if fgt v m then v else m)
            (tl a) (hd (of_Z 0) a).

Definition np_amin (a : list F) : F :=
  fold_left (fun m v => if np_isnan m then m else if np_isnan v then v
                        else if fgt m v then v else m)
            (tl a) (hd (of_Z 0) a).

Definition np_sum (a : list F) : F := fold_left fadd a (of_Z 0).

Definition np_mean (a : list F) : F :=
  fdiv (np_sum a) (of_Z (Z.of_nat (length a))).

(** An entry of [np.cov(x, y, bias=1)]: the deviations from the means are
    multiplied, summed, and the sum is multiplied by [1/N]. *)
Definition np_cov (xm ym : F) (x y : list F) : F :=
  let dx := map (fun v => fsub v xm) x in
  let dy := map (fun v => fsub v ym) y in
  fmul (np_sum (zip_with fmul dx dy))
       (fdiv (of_Z 1) (of_Z (Z.of_nat (length x)))).

Definition linregress (x y : list F) : outcome (F * F * F) :=
  if Nat.eqb (length x) 0 || Nat.eqb (length y) 0
  then Raises (ValueError "Inputs must not be empty.")
  else if feq (np_amax x) (np_amin x) && Nat.ltb 1 (length x)
  then Raises (ValueError
         "Cannot calculate a linear regression if all x values are identical")
  else if negb (Nat.eqb (length x) (length y))
  then Raises (ValueError "all the input array dimensions must match exactly")
  else
    let xmean := np_mean x in
    let ymean := np_mean y in
    let ssxm := np_cov xmean xmean x x in
    let ssxym := np_cov xmean ymean x y in
    let ssym := np_cov ymean ymean y y in
    let r :=
      if feq ssxm (of_Z 0) || feq ssym (of_Z 0) then of_Z 0
      else
        let r := fdiv ssxym (fsqrt (fmul ssxm ssym)) in
        if fgt r (of_Z 1) then of_Z 1
        else if fgt (of_Z (-1)) r then of_Z (-1)
        else r in
    let sl := fdiv ssxym ssxm in
    let ic := fsub ymean (fmul sl xmean) in
    Returns (sl, ic, r).
End Linregress.

(** ** The claims' own words *)

Section Stated.
Context {F : Type} `{Scalar F}.

(** The charge increment of the interval [[time[j], time[j+1]]], by the
    right endpoint: [(time[j+1] - time[j]) * current[j+1]]. *)
Definition increment (time current : list F) (j : nat) : F :=
  fmul (fsub (nth (S j) time (of_Z 0)) (nth j time (of_Z 0)))
       (nth (S j) current (of_Z 0)).

(** The running sum of the increments of index below [i], from zero. *)
Definition running_sum (time current : list F) (i : nat) : F :=
  fold_left fadd (map (increment time current) (seq 0 i)) (of_Z 0).

(** The abscissa of the Cottrell analysis as the specification writes
    it: [1/sqrt(time[1:])]. *)
Definition inverse_sqrt (time : list F) : list F :=
  map (fun t => fdiv (of_Z 1) (fsqrt t)) (tl time).
End Stated.

(** A strictly increasing series of times. *)
Definition strictly_increasing (time : list R) : Prop :=
  forall i : nat, (S i < length time)%nat ->
    (nth i time 0 < nth (S i) time 0)%R.

(** ** What the search maintains *)

Section Maintained.
Context {F : Type} `{Scalar F}.
Variable regression : list F -> list F -> outcome (F * F * F).
Variables (x_data y_data : list F) (w : Z).

(** After the windows that start at [0, ..., n-1], all of them fitted, the
    running best [b] is
    - the initial dictionary, when no window had an [r_squared] strictly
      greater than zero;
    - otherwise the fit of a window [t < n] whose [r_squared] is strictly
      positive, that no window exceeds, and that no earlier window equals. *)
Definition earliest_maximum (n : nat) (b : fit F) : Prop :=
  (b = initial_fit w /\
   forall a : nat, (a < n)%nat ->
     exists c, window_fit regression x_data y_data w (Z.of_nat a) = Returns c /\
               fgt (value (r_squared c)) (of_Z 0) = false)
  \/
  (exists t : nat,
      (t < n)%nat /\
      window_fit regression x_data y_data w (Z.of_nat t) = Returns b /\
      fgt (value (r_squared b)) (of_Z 0) = true /\
      forall a : nat, (a < n)%nat ->
        exists c, window_fit regression x_data y_data w (Z.of_nat a) = Returns c /\
                  fgt (value (r_squared c)) (value (r_squared b)) = false /\
                  ((a < t)%nat -> value (r_squared c) <> value (r_squared b))).
End Maintained.

(** ** Objects for the examples *)

(** An object with the given series and parameters, nothing computed yet. *)
Definition measurement {F : Type} `{Scalar F} (time current : list F)
           (w n : Z) (area concentration : F) : Voltammetry_CA F :=
  {| voltage := []; current := current; time := time;
     number_of_electrons := n;
     applied_voltage := of_Z 0;
     np_time := time; np_current := current;
     cumulative_charge := None;
     mass_of_active_material := None;
     area_of_active_material := area;
     concentration_of_active_material := concentration;
     window_size := w;
     diffusion_coefficient := None;
     reaction_order := None;
     reaction_rate_constant := None |}.

(** A base-class initialiser that stores the series as they are. *)
Definition store_series {F : Type} (voltage current time : list F)
           (current_units time_units : string) (n : Z) : outcome (Voltammetry F) :=
  Returns {| base_voltage := voltage; base_current := current;
             base_time := time; base_number_of_electrons := n |}.

Definition no_arguments {F : Type} `{Scalar F} : arguments F :=
  {| measured_current_units := "A"; measured_time_units := "s";
     arg_number_of_electrons := 1;
     arg_applied_voltage := of_Z 0;
     arg_mass_of_active_material := None;
     arg_area_of_active_material := None;
     arg_concentration_of_active_material := None;
     arg_window_size := None |}.

(** ** The remaining methods: [analyze] and [perform_all_actions] *)

(** The attribute [reaction_kinetics], which [analyze] creates: absent, or
    holding Python's [None]. *)
Inductive attribute : Type :=
| Unset
| PyNone.

(** An object with that attribute beside the others. *)
Record CA_object (F : Type) : Type := {
  attributes : Voltammetry_CA F;
  reaction_kinetics : attribute
}.

(** What a call can raise at this level: an exception of the analysis, or
    the [TypeError] of a call whose arguments do not fit the signature. *)
Inductive py_exception : Type :=
| Known (e : exn)
| TypeError.

(** How a call of a method that may have assigned to the object before
    raising ends. *)
Inductive completion : Type :=
| Normal
| Abrupt (e : py_exception).

Section Driver.
Context {F : Type} `{Scalar F}.
Variable regression : list F -> list F -> outcome (F * F * F).

(** [_preprocess_data], [plot] and [save_data]: each body is [pass]. *)
Definition _preprocess_data (o : CA_object F) : CA_object F * completion :=
  (o, Normal).

Definition plot (o : CA_object F) : CA_object F * completion := (o, Normal).

Definition save_data (o : CA_object F) : CA_object F * completion := (o, Normal).

(** [analyze].  The object keeps what a step assigned when a later step
    raises; [_analyze_reaction_kinetics] has no [return] statement, so
    [reaction_kinetics] receives [None]. *)
Definition analyze (o : CA_object F) : CA_object F * completion :=
  match _calculate_diffusion_coefficient regression (attributes o) with
  | Raises e => (o, Abrupt (Known e))
  | Returns a1 =>
      match _analyze_reaction_kinetics regression a1 with
      | Raises e =>
          ({| attributes := a1; reaction_kinetics := reaction_kinetics o |},
           Abrupt (Known e))
      | Returns a2 =>
          _preprocess_data {| attributes := a2; reaction_kinetics := PyNone |}
      end
  end.

(** A call [self.m(...)] of a method declared [def m(self)], with the given
    number of positional arguments and the given keywords: anything beyond
    [self] is a [TypeError], raised before the body runs. *)
Definition call_without_parameters
           (m : CA_object F -> CA_object F * completion)
           (positional : nat) (keywords : list string) (o : CA_object F)
  : CA_object F * completion :=
  match positional, keywords with
  | O, [] => m o
  | _, _ => (o, Abrupt TypeError)
  end.

(** [perform_all_actions(save_dir, plots, optional_name)] *)
Definition perform_all_actions (o : CA_object F) (save_dir : string)
           (plots : list string) (optional_name : option string)
  : CA_object F * completion :=
  match analyze o with
  | (o1, Abrupt e) => (o1, Abrupt e)
  | (o1, Normal) =>
      match call_without_parameters plot 2 ["optional_name"%string] o1 with
      | (o2, Abrupt e) => (o2, Abrupt e)
      | (o2, Normal) =>
          call_without_parameters save_data 0
                                  ["save_dir"%string; "optional_name"%string] o2
      end
  end.
End Driver.

(** ** What a caller reads from the object *)

Section Observed.
Context {F : Type} `{Scalar F}.
Variable regression : list F -> list F -> outcome (F * F * F).

(** The object with other series in [np_time] and [np_current]. *)
Definition with_series (time0 current0 : list F) (self : Voltammetry_CA F)
  : Voltammetry_CA F :=
  {| voltage := voltage self; current := current self; time := time self;
     number_of_electrons := number_of_electrons self;
     applied_voltage := applied_voltage self;
     np_time := time0; np_current := current0;
     cumulative_charge := cumulative_charge self;
     mass_of_active_material := mass_of_active_material self;
     area_of_active_material := area_of_active_material self;
     concentration_of_active_material := concentration_of_active_material self;
     window_size := window_size self;
     diffusion_coefficient := diffusion_coefficient self;
     reaction_order := reaction_order self;
     reaction_rate_constant := reaction_rate_constant self |}.

(** [self.cumulative_charge] after [self._calculate_charge()]. *)
Definition stored_charge (self : Voltammetry_CA F) : outcome (option (list F)) :=
  ' (self', _) <- _calculate_charge self ;;
  Returns (cumulative_charge self').

(** [self.diffusion_coefficient] after
    [self._calculate_diffusion_coefficient()]. *)
Definition stored_diffusion (self : Voltammetry_CA F) : outcome (option F) :=
  self' <- _calculate_diffusion_coefficient regression self ;;
  Returns (diffusion_coefficient self').

(** [self.reaction_order] and [self.reaction_rate_constant] after
    [self._analyze_reaction_kinetics()]. *)
Definition stored_kinetics (self : Voltammetry_CA F)
  : outcome (option Z * option (pynum F)) :=
  self' <- _analyze_reaction_kinetics regression self ;;
  Returns (reaction_order self', reaction_rate_constant self').
End Observed.

(** ** Proof steps *)

(** Case analysis on every comparison of integers or positives in sight. *)
Ltac compare_cases :=
  repeat match goal with
         | |- context [Z.compare ?a ?b] => destruct (Z.compare_spec a b)
         | H : context [Z.compare ?a ?b] |- _ => destruct (Z.compare_spec a b)
         | |- context [Pos.compare ?a ?b] => destruct (Pos.compare_spec a b)
         | H : context [Pos.compare ?a ?b] |- _ => destruct (Pos.compare_spec a b)
         end;
  subst; cbn in *; try discriminate; try reflexivity; try lia.

(** * Properties *)

Unset Implicit Arguments.

(** ** Sequences *)

Section SequenceFacts.
Context {A : Type}.

Lemma from1_tl (l : list A) : from1 l = tl l.
Proof.
  unfold from1, py_slice, py_bound.
  destruct l as [|a l]; [reflexivity|].
  cbn [length tl].
  assert (Hlen : Z.of_nat (S (length l)) = Z.of_nat (length l) + 1) by lia.
  rewrite Hlen.
  destruct (1 <? 0) eqn:E1; [apply Z.ltb_lt in E1; lia|].
  destruct (Z.of_nat (length l) + 1 <? 0) eqn:E2; [apply Z.ltb_lt in E2; lia|].
  replace (Z.min 1 (Z.of_nat (length l) + 1)) with 1 by lia.
  replace (Z.min (Z.of_nat (length l) + 1) (Z.of_nat (length l) + 1) - 1)
    with (Z.of_nat (length l)) by lia.
  rewrite Nat2Z.id. change (Z.to_nat 1) with 1%nat. cbn [skipn].
  apply firstn_all.
Qed.

Lemma zip_with_length (op : A -> A -> A) (a b : list A) :
  length (zip_with op a b) = Nat.min (length a) (length b).
Proof.
  revert b; induction a as [|u a IH]; intros [|v b]; cbn; auto.
Qed.

Lemma zip_with_nth (op : A -> A -> A) (d : A) (a b : list A) (j : nat) :
  (j < length a)%nat -> (j < length b)%nat ->
  nth j (zip_with op a b) d = op (nth j a d) (nth j b d).
Proof.
  revert b j; induction a as [|u a IH]; intros [|v b] [|j]; cbn; intros Ha Hb;
    try lia; auto.
  apply IH; lia.
Qed.

Lemma tl_nth (d : A) (l : list A) (j : nat) : nth j (tl l) d = nth (S j) l d.
Proof. destruct l; [destruct j|]; reflexivity. Qed.

Lemma removelast_nth (d : A) (l : list A) (j : nat) :
  (S j < length l)%nat -> nth j (removelast l) d = nth j l d.
Proof.
  revert j; induction l as [|a l IH]; intros j Hj; cbn in Hj; [lia|].
  destruct l as [|b l]; [cbn in Hj; lia|].
  change (removelast (a :: b :: l)) with (a :: removelast (b :: l)).
  destruct j as [|j]; [reflexivity|].
  cbn [nth]. apply IH. cbn [length] in *. lia.
Qed.

Lemma removelast_length (l : list A) : length (removelast l) = pred (length l).
Proof.
  induction l as [|a l IH]; [reflexivity|].
  destruct l as [|b l]; [reflexivity|].
  change (removelast (a :: b :: l)) with (a :: removelast (b :: l)).
  cbn [length] in *. rewrite IH. reflexivity.
Qed.

Lemma tl_length (l : list A) : length (tl l) = pred (length l).
Proof. destruct l; reflexivity. Qed.

Lemma firstn_as_map (d : A) (l : list A) (i : nat) :
  (i <= length l)%nat -> firstn i l = map (fun j => nth j l d) (seq 0 i).
Proof.
  revert i; induction l as [|a l IH]; intros [|i] Hi; cbn in *; try lia; auto.
  rewrite <- seq_shift, map_map. f_equal. apply IH. lia.
Qed.
End SequenceFacts.

(** ** Cumulative charge *)

Section ChargeFacts.
Context {F : Type} `{Scalar F}.

Lemma cumsum_from_length (a : list F) (acc : F) :
  length (cumsum_from acc a) = length a.
Proof. revert acc; induction a as [|v a IH]; intros acc; cbn; auto. Qed.

Lemma cumsum_from_nth (a : list F) (acc : F) (i : nat) :
  (i < length a)%nat ->
  nth_error (cumsum_from acc a) i = Some (fold_left fadd (firstn (S i) a) acc).
Proof.
  revert acc i; induction a as [|v a IH]; intros acc i Hi; cbn in Hi; [lia|].
  destruct i as [|i].
  - destruct a; reflexivity.
  - cbn [cumsum_from nth_error]. rewrite IH by lia. reflexivity.
Qed.

Lemma np_diff_length (a : list F) : length (np_diff a) = pred (length a).
Proof.
  unfold np_diff. rewrite zip_with_length, tl_length, removelast_length.
  apply Nat.min_id.
Qed.

Lemma np_diff_nth (a : list F) (d : F) (j : nat) :
  (S j < length a)%nat ->
  nth j (np_diff a) d = fsub (nth (S j) a d) (nth j a d).
Proof.
  intros Hj. unfold np_diff.
  rewrite zip_with_nth.
  - rewrite tl_nth, removelast_nth by assumption. reflexivity.
  - rewrite tl_length. lia.
  - rewrite removelast_length. lia.
Qed.

Lemma interval_charges_length (time current : list F) :
  length time = length current ->
  length (interval_charges time current) = pred (length time).
Proof.
  intros E. unfold interval_charges.
  rewrite zip_with_length, np_diff_length, tl_length, <- E. apply Nat.min_id.
Qed.

Lemma interval_charges_nth (time current : list F) (j : nat) :
  length time = length current -> (S j < length time)%nat ->
  nth j (interval_charges time current) (of_Z 0) = increment time current j.
Proof.
  intros E Hj. unfold interval_charges, increment.
  rewrite zip_with_nth.
  - rewrite np_diff_nth, tl_nth by assumption. reflexivity.
  - rewrite np_diff_length. lia.
  - rewrite tl_length. lia.
Qed.

Lemma calculate_charge_equal_lengths (self : Voltammetry_CA F) :
  length (np_time self) = length (np_current self) ->
  _calculate_charge self =
  Returns (set_cumulative_charge
             (Some (of_Z 0 :: cumsum_from (of_Z 0)
                               (interval_charges (np_time self) (np_current self))))
             self,
           None).
Proof.
  intros E. unfold _calculate_charge, np_mul.
  rewrite from1_tl, np_diff_length, tl_length, E, Nat.eqb_refl.
  reflexivity.
Qed.

Lemma running_sum_prefix (time current : list F) (i : nat) :
  length time = length current -> (i < length time)%nat ->
  fold_left fadd (firstn i (interval_charges time current)) (of_Z 0)
  = running_sum time current i.
Proof.
  intros E Hi. unfold running_sum.
  rewrite (firstn_as_map (of_Z 0))
    by (rewrite interval_charges_length by assumption; lia).
  f_equal. apply map_ext_in. intros j Hj. apply in_seq in Hj.
  apply interval_charges_nth; [assumption | lia].
Qed.

Lemma calculate_charge_returns_None (self self' : Voltammetry_CA F)
      (returned : option (list F)) :
  _calculate_charge self = Returns (self', returned) ->
  returned = None /\
  exists charges,
    np_mul (np_diff (np_time self)) (from1 (np_current self)) = Returns charges /\
    self' = set_cumulative_charge
              (Some (np_cumsum (np_insert_zero charges))) self.
Proof.
  unfold _calculate_charge.
  destruct (np_mul _ _) as [charges|e]; cbn; [|discriminate].
  intros E. injection E as <- <-. split; [reflexivity|].
  exists charges. split; reflexivity.
Qed.
End ChargeFacts.

(** C3.  For a time series of length [n >= 2], [_calculate_charge] stores a
    sequence of length [n] whose first element is [0] and whose [i]-th
    element is the running sum of the increments
    [(time[j+1] - time[j]) * current[j+1]] for [j < i] (right endpoint, no
    trapezoid); on [time = [0,1,2,3]], [current = [0,2,2,2]] it stores
    [[0,2,4,6]]. *)
Theorem calculate_charge_right_endpoint :
  (forall (F : Type) (SF : Scalar F) (self : Voltammetry_CA F) (n : nat),
      length (np_time self) = n -> length (np_current self) = n ->
      (2 <= n)%nat ->
      exists q : list F,
        _calculate_charge self
        = Returns (set_cumulative_charge (Some q) self, None)
        /\ length q = n
        /\ nth_error q 0 = Some (of_Z 0)
        /\ forall i : nat, (i < n)%nat ->
             nth_error q i
             = Some (running_sum (np_time self) (np_current self) i))
  /\ (let self := measurement [0; 1; 2; 3]%float [0; 2; 2; 2]%float 10 1 1%float 1%float in
      _calculate_charge self
      = Returns (set_cumulative_charge (Some [0; 2; 4; 6]%float) self, None)).
Proof.
  split; [|vm_compute; reflexivity].
  intros F SF self n Ht Hc Hn.
  assert (E : length (np_time self) = length (np_current self)) by congruence.
  eexists. split; [apply calculate_charge_equal_lengths; exact E|].
  split; [|split].
  - cbn [length]. rewrite cumsum_from_length, interval_charges_length by exact E.
    lia.
  - reflexivity.
  - intros [|i] Hi.
    + reflexivity.
    + cbn [nth_error]. rewrite cumsum_from_nth
        by (rewrite interval_charges_length by exact E; lia).
      f_equal. apply running_sum_prefix; [exact E | lia].
  Qed.

(** The general statement at the series of the example, in binary64. *)
Lemma calculate_charge_right_endpoint_example :
  exists q : list float,
    _calculate_charge (measurement [0; 1; 2; 3]%float [0; 2; 2; 2]%float 10 1 1%float 1%float)
    = Returns (set_cumulative_charge (Some q)
                 (measurement [0; 1; 2; 3]%float [0; 2; 2; 2]%float 10 1 1%float 1%float),
               None)
    /\ length q = 4%nat
    /\ nth_error q 0 = Some 0%float
    /\ forall i : nat, (i < 4)%nat ->
         nth_error q i
         = Some (running_sum [0; 1; 2; 3]%float [0; 2; 2; 2]%float i).
Proof.
  apply (proj1 calculate_charge_right_endpoint float float_scalar
               (measurement [0; 1; 2; 3]%float [0; 2; 2; 2]%float 10 1 1%float 1%float)
               4%nat).
  - reflexivity.
  - reflexivity.
  - cbn; lia.
Defined.


(** ** The order of binary64 *)

Lemma SFltb_irrefl (u : spec_float) : SFltb u u = false.
Proof.
  unfold SFltb, SFcompare.
  destruct u as [s|s| |s m e]; try destruct s; try reflexivity;
    rewrite Z.compare_refl; change (Pos.compare_cont Eq m m) with (Pos.compare m m);
    rewrite Pos.compare_refl; reflexivity.
Qed.

Lemma SFltb_trans (u v t : spec_float) :
  SFltb u v = true -> SFltb v t = true -> SFltb u t = true.
Proof.
  unfold SFltb, SFcompare.
  destruct u as [su|su| |su mu eu], v as [sv|sv| |sv mv ev], t as [st|st| |st mt et];
    try destruct su; try destruct sv; try destruct st;
    try discriminate; try reflexivity;
    change (Pos.compare_cont Eq) with Pos.compare; intros Huv Hvt; compare_cases.
Qed.

(** [>] on [float64] is irreflexive and transitive, NaN included. *)
Lemma float_gt_irrefl (a : float) : fgt a a = false.
Proof. cbn. rewrite ltb_spec. apply SFltb_irrefl. Qed.

Lemma float_gt_trans (a b c : float) :
  fgt a b = true -> fgt b c = true -> fgt a c = true.
Proof.
  cbn. rewrite !ltb_spec. intros Hab Hbc. eapply SFltb_trans; eassumption.
Qed.

(** A [float64] strictly greater than another is not NaN. *)
Lemma float_gt_not_nan (a b : float) : fgt a b = true -> np_isnan a = false.
Proof.
  unfold np_isnan. cbn. rewrite ltb_spec, eqb_spec. unfold SFltb, SFeqb, SFcompare.
  destruct (Prim2SF a) as [sa|sa| |sa ma ea], (Prim2SF b) as [sb|sb| |sb mb eb];
    try destruct sa; try discriminate; intros _; try reflexivity;
    rewrite Z.compare_refl; change (Pos.compare_cont Eq ma ma) with (Pos.compare ma ma);
    rewrite Pos.compare_refl; reflexivity.
Qed.

Lemma R_gt_irrefl (a : R) : fgt a a = false.
Proof. cbn. destruct (Rlt_dec a a); [lra | reflexivity]. Qed.

Lemma R_gt_trans (a b c : R) :
  fgt a b = true -> fgt b c = true -> fgt a c = true.
Proof.
  cbn. destruct (Rlt_dec b a), (Rlt_dec c b), (Rlt_dec c a);
    intros; try discriminate; try reflexivity; lra.
Qed.

(** ** The sliding-window search *)

Section SearchFacts.
Context {F : Type} `{Scalar F}.
Variable regression : list F -> list F -> outcome (F * F * F).
Variables (x_data y_data : list F) (w : Z).

Local Abbreviation window := (window_fit regression x_data y_data w).
Local Abbreviation body := (loop_body regression x_data y_data w).
Local Abbreviation loop := (for_each regression x_data y_data w).

Lemma window_fit_inv (s : Z) (c : fit F) :
  window s = Returns c ->
  exists sl ic rv,
    regression (py_slice x_data s (s + w)) (py_slice y_data s (s + w))
    = Returns (sl, ic, rv)
    /\ c = {| start := s; end_ := s + w;
              r_squared := NpFloat (fmul rv rv);
              slope := NpFloat sl; intercept := NpFloat ic |}.
Proof.
  unfold window_fit.
  destruct (regression _ _) as [[[sl ic] rv]|e]; cbn; [|discriminate].
  intros E. injection E as <-. exists sl, ic, rv. split; reflexivity.
Qed.

Lemma window_fit_start (s : Z) (c : fit F) :
  window s = Returns c -> start c = s /\ end_ c = s + w.
Proof.
  intros E. apply window_fit_inv in E as (sl & ic & rv & _ & ->).
  split; reflexivity.
Qed.

Lemma window_fit_total (s : Z) :
  (exists v, regression (py_slice x_data s (s + w)) (py_slice y_data s (s + w))
             = Returns v) ->
  exists c, window s = Returns c.
Proof.
  intros [[[sl ic] rv] E]. unfold window_fit. rewrite E. cbn. eexists; reflexivity.
Qed.

Lemma window_fit_raises (s : Z) (e : exn) :
  window s = Raises e <->
  regression (py_slice x_data s (s + w)) (py_slice y_data s (s + w)) = Raises e.
Proof.
  unfold window_fit.
  destruct (regression _ _) as [[[sl ic] rv]|e']; cbn; split; congruence.
Qed.

(** The running best is replaced exactly when the window's [r_squared] is
    strictly greater. *)
Lemma loop_body_returns (best : fit F) (s : Z) (c : fit F) :
  window s = Returns c ->
  body best s
  = Returns (if fgt (value (r_squared c)) (value (r_squared best)) then c else best).
Proof.
  intros E. unfold loop_body. rewrite E. cbn.
  destruct (fgt _ _); reflexivity.
Qed.

Lemma loop_body_raises (best : fit F) (s : Z) (e : exn) :
  window s = Raises e -> body best s = Raises e.
Proof. intros E. unfold loop_body. rewrite E. reflexivity. Qed.

Lemma loop_body_inv (best best' : fit F) (s : Z) :
  body best s = Returns best' ->
  exists c, window s = Returns c /\
            best' = if fgt (value (r_squared c)) (value (r_squared best))
                    then c else best.
Proof.
  destruct (window s) as [c|e] eqn:E.
  - rewrite (loop_body_returns best s c E). intros E'. injection E' as <-.
    exists c. split; reflexivity.
  - rewrite (loop_body_raises best s e E). discriminate.
Qed.

(** A property of the running best that every turn preserves holds of the
    result. *)
Lemma for_each_invariant (I : nat -> fit F -> Prop) :
  (forall (a : nat) (best c : fit F),
      I a best -> window (Z.of_nat a) = Returns c ->
      I (S a) (if fgt (value (r_squared c)) (value (r_squared best))
               then c else best)) ->
  forall (k a : nat) (best f : fit F),
    I a best ->
    loop (map Z.of_nat (seq a k)) best = Returns f ->
    I (a + k)%nat f.
Proof.
  intros Hstep. induction k as [|k IH]; intros a best f Hi E; cbn in E.
  - injection E as <-. rewrite Nat.add_0_r. exact Hi.
  - destruct (body best (Z.of_nat a)) as [best'|e] eqn:Eb; cbn in E; [|discriminate].
    apply loop_body_inv in Eb as (c & Ec & ->).
    rewrite Nat.add_succ_r. apply (IH (S a) _ f (Hstep a best c Hi Ec) E).
Qed.

(** The loop returns when the regression returns on every window. *)
Lemma for_each_total (starts : list Z) (best : fit F) :
  (forall s, In s starts -> exists c, window s = Returns c) ->
  exists f, loop starts best = Returns f.
Proof.
  revert best. induction starts as [|s rest IH]; intros best Hall; cbn.
  - eexists; reflexivity.
  - destruct (Hall s (or_introl eq_refl)) as [c Ec].
    rewrite (loop_body_returns best _ _ Ec). cbn.
    apply IH. intros s' Hs'. apply Hall. right. exact Hs'.
Qed.

(** The loop raises what the first failing window raises. *)
Lemma for_each_first_raise (before after : list Z) (s : Z) (e : exn) (best : fit F) :
  (forall s', In s' before -> exists c, window s' = Returns c) ->
  window s = Raises e ->
  loop (before ++ s :: after) best = Raises e.
Proof.
  revert best. induction before as [|s0 before IH]; intros best Hall Es; cbn.
  - rewrite (loop_body_raises best _ _ Es). reflexivity.
  - destruct (Hall s0 (or_introl eq_refl)) as [c Ec].
    rewrite (loop_body_returns best _ _ Ec). cbn.
    apply IH; [|exact Es]. intros s' Hs'. apply Hall. right. exact Hs'.
Qed.

(** When the loop returns, the regression returned on every window. *)
Lemma for_each_windows_return (starts : list Z) (best f : fit F) :
  loop starts best = Returns f ->
  forall s, In s starts -> exists c, window s = Returns c.
Proof.
  revert best. induction starts as [|s0 rest IH]; intros best E s Hs; cbn in E.
  - destruct Hs.
  - destruct (window s0) as [c0|e0] eqn:E0.
    + rewrite (loop_body_returns best s0 c0 E0) in E. cbn in E.
      destruct Hs as [<-|Hs]; [exists c0; exact E0|].
      exact (IH _ E s Hs).
    + rewrite (loop_body_raises best s0 e0 E0) in E. discriminate.
Qed.

(** An exception of the loop is an exception of the regression on one of
    the windows. *)
Lemma for_each_raises_inv (starts : list Z) (best : fit F) (e : exn) :
  loop starts best = Raises e ->
  exists s, In s starts /\ window s = Raises e.
Proof.
  revert best. induction starts as [|s rest IH]; intros best E; cbn in E.
  - discriminate.
  - destruct (window s) as [c|e'] eqn:Ec.
    + rewrite (loop_body_returns best _ _ Ec) in E. cbn in E.
      apply IH in E as (s' & Hin & Es'). exists s'. split; [right|]; assumption.
    + rewrite (loop_body_raises best _ _ Ec) in E. cbn in E. injection E as <-.
      exists s. split; [left; reflexivity | exact Ec].
Qed.
End SearchFacts.

Lemma py_range_spec (n s : Z) : In s (py_range n) <-> 0 <= s < n.
Proof.
  unfold py_range. rewrite in_map_iff. split.
  - intros (a & <- & Ha). apply in_seq in Ha. lia.
  - intros Hs. exists (Z.to_nat s). split; [lia|]. apply in_seq. lia.
Qed.

Lemma py_range_empty (n : Z) : n <= 0 -> py_range n = [].
Proof.
  intros Hn. unfold py_range. replace (Z.to_nat n) with 0%nat by lia. reflexivity.
Qed.

Lemma py_slice_length {A : Type} (l : list A) (s w : Z) :
  0 <= s -> 0 <= w -> s + w <= Z.of_nat (length l) ->
  length (py_slice l s (s + w)) = Z.to_nat w.
Proof.
  intros Hs Hw Hl. unfold py_slice, py_bound.
  destruct (s <? 0) eqn:E1; [apply Z.ltb_lt in E1; lia|].
  destruct (s + w <? 0) eqn:E2; [apply Z.ltb_lt in E2; lia|].
  rewrite length_firstn, length_skipn. lia.
Qed.

Section EarliestMaximum.
Context {F : Type} `{Scalar F}.
Variable regression : list F -> list F -> outcome (F * F * F).
Variables (x_data y_data : list F) (w : Z).

(** What is assumed of [>]: it is a strict order. *)
Hypothesis gt_irrefl : forall a : F, fgt a a = false.
Hypothesis gt_trans :
  forall a b c : F, fgt a b = true -> fgt b c = true -> fgt a c = true.

Local Abbreviation window := (window_fit regression x_data y_data w).
Local Abbreviation maintained := (earliest_maximum regression x_data y_data w).

Lemma gt_false_of_trans (a b c : F) :
  fgt b c = true -> fgt a c = false -> fgt a b = false.
Proof.
  intros Hbc Hac. destruct (fgt a b) eqn:Hab; [|reflexivity].
  rewrite (gt_trans a b c Hab Hbc) in Hac. discriminate.
Qed.

Lemma earliest_maximum_start : maintained 0%nat (initial_fit w).
Proof. left. split; [reflexivity|]. intros a Ha. lia. Qed.

Lemma earliest_maximum_step (a : nat) (best c : fit F) :
  maintained a best ->
  window (Z.of_nat a) = Returns c ->
  maintained (S a)
    (if fgt (value (r_squared c)) (value (r_squared best)) then c else best).
Proof.
  intros Hbest Ec.
  destruct (fgt (value (r_squared c)) (value (r_squared best))) eqn:Hgt.
  - (* the window becomes the running best *)
    assert (Hpos : fgt (value (r_squared c)) (of_Z 0) = true).
    { destruct Hbest as [[-> _]|(t & _ & _ & Ht & _)].
      - exact Hgt.
      - exact (gt_trans _ _ _ Hgt Ht). }
    right. exists a. split; [lia|]. split; [exact Ec|]. split; [exact Hpos|].
    intros a' Ha'.
    destruct (Nat.eq_dec a' a) as [->|Hne].
    + exists c. split; [exact Ec|]. split; [apply gt_irrefl | lia].
    + assert (Hlt : (a' < a)%nat) by lia.
      destruct Hbest as [[-> Hall]|(t & _ & _ & _ & Hall)].
      * destruct (Hall a' Hlt) as (c' & Ec' & Hc').
        exists c'. split; [exact Ec'|]. split.
        -- exact (gt_false_of_trans _ _ _ Hpos Hc').
        -- intros _ Heq. rewrite Heq, Hpos in Hc'. discriminate.
      * destruct (Hall a' Hlt) as (c' & Ec' & Hc' & _).
        exists c'. split; [exact Ec'|]. split.
        -- exact (gt_false_of_trans _ _ _ Hgt Hc').
        -- intros _ Heq. rewrite Heq, Hgt in Hc'. discriminate.
  - (* the running best stays *)
    destruct Hbest as [[-> Hall]|(t & Ht & Et & Hpos & Hall)].
    + left. split; [reflexivity|]. intros a' Ha'.
      destruct (Nat.eq_dec a' a) as [->|Hne].
      * exists c. split; [exact Ec | exact Hgt].
      * apply Hall. lia.
    + right. exists t. split; [lia|]. split; [exact Et|]. split; [exact Hpos|].
      intros a' Ha'.
      destruct (Nat.eq_dec a' a) as [->|Hne].
      * exists c. split; [exact Ec|]. split; [exact Hgt | lia].
      * apply Hall. lia.
Qed.

Lemma for_each_earliest_maximum (n : nat) (f : fit F) :
  for_each regression x_data y_data w (map Z.of_nat (seq 0 n)) (initial_fit w)
  = Returns f ->
  maintained n f.
Proof.
  intros E.
  exact (for_each_invariant regression x_data y_data w maintained
           earliest_maximum_step n 0%nat (initial_fit w) f
           earliest_maximum_start E).
Qed.
End EarliestMaximum.

Section SearchResults.
Context {F : Type} `{Scalar F}.
Variable regression : list F -> list F -> outcome (F * F * F).
Variables (self : Voltammetry_CA F) (x_data y_data : list F).

Local Abbreviation w := (window_size self).
Local Abbreviation windows := (Z.of_nat (length x_data) - window_size self + 1).
Local Abbreviation window := (window_fit regression x_data y_data (window_size self)).
Local Abbreviation search := (_analyze_best_linear_fit regression self x_data y_data).

(** The result is the initial dictionary or the fit of one of the windows. *)
Lemma search_result (f : fit F) :
  search = Returns f ->
  f = initial_fit w \/ exists s, 0 <= s < windows /\ window s = Returns f.
Proof.
  intros E. unfold _analyze_best_linear_fit, py_range in E.
  pose (I := fun (n : nat) (b : fit F) =>
               b = initial_fit w \/
               exists t, (t < n)%nat /\ window (Z.of_nat t) = Returns b).
  assert (Hi : I (0 + Z.to_nat windows)%nat f).
  { apply (for_each_invariant regression x_data y_data w I) with (best := initial_fit w);
      [|left; reflexivity|exact E].
    intros a best c Hb Ec. destruct (fgt _ _).
    - right. exists a. split; [lia | exact Ec].
    - destruct Hb as [->|(t & Ht & Et)]; [left; reflexivity|].
      right. exists t. split; [lia | exact Et]. }
  destruct Hi as [->|(t & Ht & Et)]; [left; reflexivity|].
  right. exists (Z.of_nat t). split; [lia | exact Et].
Qed.

Lemma search_total :
  (forall s, 0 <= s < windows -> exists c, window s = Returns c) ->
  exists f, search = Returns f.
Proof.
  intros Hall. apply for_each_total. intros s Hs.
  apply Hall. apply py_range_spec. exact Hs.
Qed.

Lemma search_raises_inv (e : exn) :
  search = Raises e -> exists s, 0 <= s < windows /\ window s = Raises e.
Proof.
  intros E. apply for_each_raises_inv in E as (s & Hs & Es).
  exists s. split; [apply py_range_spec; exact Hs | exact Es].
Qed.

Lemma search_windows_return (f : fit F) :
  search = Returns f ->
  forall s, 0 <= s < windows -> exists c, window s = Returns c.
Proof.
  intros E s Hs. apply py_range_spec in Hs.
  exact (for_each_windows_return regression x_data y_data w _ _ f E s Hs).
Qed.

(** The search raises what the first failing window raises. *)
Lemma search_first_raise (s : Z) (e : exn) :
  0 <= s < windows ->
  (forall s', 0 <= s' < s -> exists c, window s' = Returns c) ->
  window s = Raises e ->
  search = Raises e.
Proof.
  intros Hs Hbefore Es. unfold _analyze_best_linear_fit, py_range.
  assert (Hsplit : seq 0 (Z.to_nat windows)
                   = seq 0 (Z.to_nat s) ++ Z.to_nat s :: seq (S (Z.to_nat s))
                                                  (Z.to_nat windows - S (Z.to_nat s))).
  { replace (Z.to_nat windows)
      with (Z.to_nat s + S (Z.to_nat windows - S (Z.to_nat s)))%nat at 1 by lia.
    rewrite seq_app. reflexivity. }
  rewrite Hsplit, map_app. cbn [map]. rewrite Z2Nat.id by lia.
  apply for_each_first_raise; [|exact Es].
  intros s' Hs'. apply in_map_iff in Hs' as (a & <- & Ha). apply in_seq in Ha.
  apply Hbefore. lia.
Qed.

(** No window is fitted when the window is longer than the data. *)
Lemma search_no_window :
  Z.of_nat (length x_data) < w -> search = Returns (initial_fit w).
Proof.
  intros Hw. unfold _analyze_best_linear_fit.
  rewrite py_range_empty by lia. reflexivity.
Qed.

(** When no window has an [r_squared] strictly greater than zero the
    initial dictionary is returned. *)
Lemma search_no_improvement :
  (forall s, 0 <= s < windows ->
     exists c, window s = Returns c /\ fgt (value (r_squared c)) (of_Z 0) = false) ->
  search = Returns (initial_fit w).
Proof.
  intros Hall. unfold _analyze_best_linear_fit.
  assert (Hin : forall s, In s (py_range windows) ->
                  exists c, window s = Returns c /\
                            fgt (value (r_squared c)) (of_Z 0) = false).
  { intros s Hs. apply Hall. apply py_range_spec. exact Hs. }
  clear Hall. induction (py_range windows) as [|s rest IH]; cbn; [reflexivity|].
  destruct (Hin s (or_introl eq_refl)) as (c & Ec & Hc).
  rewrite (loop_body_returns regression x_data y_data w (initial_fit w) s c Ec).
  cbn [value r_squared initial_fit]. rewrite Hc. cbn.
  apply IH. intros s' Hs'. apply Hin. right. exact Hs'.
Qed.

Lemma search_earliest_maximum
      (gt_irrefl : forall a : F, fgt a a = false)
      (gt_trans : forall a b c : F, fgt a b = true -> fgt b c = true -> fgt a c = true)
      (f : fit F) :
  search = Returns f ->
  earliest_maximum regression x_data y_data w (Z.to_nat windows) f.
Proof.
  intros E. apply for_each_earliest_maximum; assumption.
Qed.
End SearchResults.

(** C10.  For sequences [x], [y] of one length [L] and a window size [w]
    with [2 <= w <= L], every result of the search has
    [end - start = w] and [0 <= start <= L - w], and the window
    [[start, end)] holds [w] samples of each sequence.  The search returns
    such a result as soon as the regression routine returns on every window. *)
Theorem best_linear_fit_window_geometry :
  forall (F : Type) (SF : Scalar F)
         (regression : list F -> list F -> outcome (F * F * F))
         (self : Voltammetry_CA F) (x_data y_data : list F) (L : nat),
    length x_data = L -> length y_data = L ->
    2 <= window_size self <= Z.of_nat L ->
    (forall f : fit F,
        _analyze_best_linear_fit regression self x_data y_data = Returns f ->
        end_ f - start f = window_size self
        /\ 0 <= start f <= Z.of_nat L - window_size self
        /\ length (py_slice x_data (start f) (end_ f)) = Z.to_nat (window_size self)
        /\ length (py_slice y_data (start f) (end_ f)) = Z.to_nat (window_size self))
    /\ ((forall s : Z, 0 <= s <= Z.of_nat L - window_size self ->
           exists v, regression (py_slice x_data s (s + window_size self))
                                (py_slice y_data s (s + window_size self))
                     = Returns v) ->
        exists f : fit F,
          _analyze_best_linear_fit regression self x_data y_data = Returns f).
Proof.
  intros F SF regression self x_data y_data L Hx Hy Hw. split.
  - intros f E.
    assert (Hgeom : end_ f = start f + window_size self
                    /\ 0 <= start f <= Z.of_nat L - window_size self).
    { apply search_result in E as [->|(s & Hs & Es)].
      - cbn. lia.
      - apply window_fit_start in Es as [-> ->]. rewrite Hx in Hs. lia. }
    destruct Hgeom as [-> Hs].
    repeat split; try lia; apply py_slice_length; lia.
  - intros Hall. apply search_total. intros s Hs.
    apply window_fit_total. apply Hall. rewrite Hx in Hs. lia.
Qed.

(** The search over four samples with windows of two, in binary64 and with
    the model of scipy's routine. *)
Lemma best_linear_fit_window_geometry_witness :
  exists f : fit float,
    _analyze_best_linear_fit linregress (measurement [] [] 2 1 1%float 1%float)
                             [1; 2; 3; 4]%float [1; 2; 4; 5]%float
    = Returns f
    /\ end_ f - start f = 2
    /\ 0 <= start f <= 2
    /\ length (py_slice [1; 2; 3; 4]%float (start f) (end_ f)) = 2%nat
    /\ length (py_slice [1; 2; 4; 5]%float (start f) (end_ f)) = 2%nat.
Proof.
  destruct (best_linear_fit_window_geometry float float_scalar linregress
              (measurement [] [] 2 1 1%float 1%float)
              [1; 2; 3; 4]%float [1; 2; 4; 5]%float 4%nat
              eq_refl eq_refl ltac:(cbn; lia)) as [Hgeom Hreturns].
  destruct Hreturns as [f Ef].
  { intros s Hs. cbn in Hs.
    assert (Hcases : s = 0 \/ s = 1 \/ s = 2) by lia.
    destruct Hcases as [-> | [-> | ->]]; vm_compute; eexists; reflexivity. }
  exists f. split; [exact Ef|]. exact (Hgeom f Ef).
Defined.

(** C9.  With [>] a strict order, a result [f] of the search satisfies:
    no window has an [r_squared] strictly greater than that of [f], and a
    window whose [r_squared] equals it does not start before [f] (the
    earliest window of maximal [r_squared] is kept, the running best being
    replaced only on a strictly greater value); the search starts from the
    first window, [start = 0], with [r_squared = 0]; and an input on which
    no window has a strictly positive [r_squared] yields exactly that initial
    result. *)
Theorem best_linear_fit_earliest_maximum :
  forall (F : Type) (SF : Scalar F)
         (gt_irrefl : forall a : F, fgt a a = false)
         (gt_trans : forall a b c : F,
             fgt a b = true -> fgt b c = true -> fgt a c = true)
         (regression : list F -> list F -> outcome (F * F * F))
         (self : Voltammetry_CA F) (x_data y_data : list F) (f : fit F),
    _analyze_best_linear_fit regression self x_data y_data = Returns f ->
    (forall s : Z, 0 <= s < Z.of_nat (length x_data) - window_size self + 1 ->
        exists c : fit F,
          window_fit regression x_data y_data (window_size self) s = Returns c
          /\ fgt (value (r_squared c)) (value (r_squared f)) = false
          /\ (value (r_squared c) = value (r_squared f) -> start f <= s))
    /\ (forall (best c : fit F) (s : Z),
           window_fit regression x_data y_data (window_size self) s = Returns c ->
           loop_body regression x_data y_data (window_size self) best s
           = Returns (if fgt (value (r_squared c)) (value (r_squared best))
                      then c else best))
    /\ @initial_fit F (window_size self)
       = {| start := 0; end_ := window_size self; r_squared := PyInt 0;
            slope := PyInt 0; intercept := PyInt 0 |}
    /\ (f = initial_fit (window_size self)
        \/ exists s : Z,
            0 <= s < Z.of_nat (length x_data) - window_size self + 1
            /\ window_fit regression x_data y_data (window_size self) s = Returns f
            /\ fgt (value (r_squared f)) (of_Z 0) = true)
    /\ ((forall (s : Z) (c : fit F),
            0 <= s < Z.of_nat (length x_data) - window_size self + 1 ->
            window_fit regression x_data y_data (window_size self) s = Returns c ->
            fgt (value (r_squared c)) (of_Z 0) = false) ->
        f = initial_fit (window_size self)).
Proof.
  intros F SF gt_irrefl gt_trans regression self x_data y_data f E.
  pose proof (search_earliest_maximum regression self x_data y_data
                gt_irrefl gt_trans f E) as Hmax.
  set (n := Z.of_nat (length x_data) - window_size self + 1) in *.
  split; [|split; [|split; [|split]]].
  - intros s Hs.
    destruct Hmax as [[-> Hall]|(t & Ht & Et & Hpos & Hall)].
    + destruct (Hall (Z.to_nat s) ltac:(lia)) as (c & Ec & Hc).
      rewrite Z2Nat.id in Ec by lia.
      exists c. split; [exact Ec|]. split; [exact Hc|]. intros _. cbn. lia.
    + destruct (Hall (Z.to_nat s) ltac:(lia)) as (c & Ec & Hc & Hne).
      rewrite Z2Nat.id in Ec by lia.
      exists c. split; [exact Ec|]. split; [exact Hc|].
      intros Heq. apply window_fit_start in Et as [-> _].
      destruct (Z_lt_le_dec s (Z.of_nat t)) as [Hlt|Hle]; [|exact Hle].
      exfalso. apply Hne; [lia | exact Heq].
  - intros best c s Ec. apply loop_body_returns. exact Ec.
  - reflexivity.
  - destruct Hmax as [[-> _]|(t & Ht & Et & Hpos & _)]; [left; reflexivity|].
    right. exists (Z.of_nat t). split; [lia|]. split; assumption.
  - intros Hflat.
    destruct Hmax as [[-> _]|(t & Ht & Et & Hpos & _)]; [reflexivity|].
    rewrite (Hflat (Z.of_nat t) f ltac:(lia) Et) in Hpos. discriminate.
Qed.

(** In binary64, with the model of scipy's routine: the first window is
    flat, the second and the third both have [r_squared = 1], and the
    second is returned. *)
Lemma best_linear_fit_earliest_maximum_witness :
  _analyze_best_linear_fit linregress (measurement [] [] 2 1 1%float 1%float)
                           [1; 2; 3; 4]%float [1; 1; 2; 3]%float
  = Returns {| start := 1; end_ := 3; r_squared := NpFloat 1%float;
               slope := NpFloat 1%float; intercept := NpFloat (-1)%float |}
  /\ (forall s : Z, 0 <= s < 3 ->
        exists c : fit float,
          window_fit linregress [1; 2; 3; 4]%float [1; 1; 2; 3]%float 2 s = Returns c
          /\ fgt (value (r_squared c)) 1%float = false
          /\ (value (r_squared c) = 1%float -> 1 <= s)).
Proof.
  assert (E : _analyze_best_linear_fit
                 linregress (measurement [] [] 2 1 1%float 1%float)
                 [1; 2; 3; 4]%float [1; 1; 2; 3]%float
               = Returns {| start := 1; end_ := 3; r_squared := NpFloat 1%float;
                            slope := NpFloat 1%float;
                            intercept := NpFloat (-1)%float |})
    by (vm_compute; reflexivity).
  split; [exact E|].
  exact (proj1 (best_linear_fit_earliest_maximum
                  float float_scalar float_gt_irrefl float_gt_trans linregress
                  (measurement [] [] 2 1 1%float 1%float)
                  [1; 2; 3; 4]%float [1; 1; 2; 3]%float
                  {| start := 1; end_ := 3; r_squared := NpFloat 1%float;
                     slope := NpFloat 1%float; intercept := NpFloat (-1)%float |}
                  E)).
Defined.

(** C6, as the code has it.  The search checks nothing about the window
    size.  When the window is longer than the data no window is fitted and
    the initial dictionary is returned; and whatever the window size, an
    exception of the search is an exception the regression routine raised on
    one of the windows. *)
Theorem best_linear_fit_window_unchecked :
  forall (F : Type) (SF : Scalar F)
         (regression : list F -> list F -> outcome (F * F * F))
         (self : Voltammetry_CA F) (x_data y_data : list F),
    (Z.of_nat (length x_data) < window_size self ->
     _analyze_best_linear_fit regression self x_data y_data
     = Returns {| start := 0; end_ := window_size self; r_squared := PyInt 0;
                  slope := PyInt 0; intercept := PyInt 0 |})
    /\ (forall e : exn,
           _analyze_best_linear_fit regression self x_data y_data = Raises e ->
           exists s : Z,
             0 <= s < Z.of_nat (length x_data) - window_size self + 1
             /\ regression (py_slice x_data s (s + window_size self))
                           (py_slice y_data s (s + window_size self))
                = Raises e).
Proof.
  intros F SF regression self x_data y_data. split.
  - intros Hw. apply search_no_window. exact Hw.
  - intros e E. apply search_raises_inv in E as (s & Hs & Es).
    exists s. split; [exact Hs|]. apply window_fit_raises. exact Es.
Qed.

Lemma best_linear_fit_window_unchecked_witness :
  _analyze_best_linear_fit linregress (measurement [] [] 10 1 1%float 1%float)
                           [1; 2; 3]%float [2; 4; 7]%float
  = Returns {| start := 0; end_ := 10; r_squared := PyInt 0;
               slope := PyInt 0; intercept := PyInt 0 |}.
Proof.
  apply (proj1 (best_linear_fit_window_unchecked float float_scalar linregress
                  (measurement [] [] 10 1 1%float 1%float)
                  [1; 2; 3]%float [2; 4; 7]%float)).
  cbn. lia.
Defined.

(** C6 fails as stated: two samples and a window of ten, and the search
    returns a result; no exception is raised. *)
Lemma window_longer_than_data_returns :
  (Z.of_nat (length [1; 2]%float) < 10)
  /\ _analyze_best_linear_fit linregress (measurement [] [] 10 1 1%float 1%float)
                              [1; 2]%float [1; 2]%float
     = Returns {| start := 0; end_ := 10; r_squared := PyInt 0;
                  slope := PyInt 0; intercept := PyInt 0 |}
  /\ ~ (exists e : exn,
           _analyze_best_linear_fit linregress (measurement [] [] 10 1 1%float 1%float)
                                    [1; 2]%float [1; 2]%float
           = Raises e).
Proof.
  split; [cbn; lia|]. split; [vm_compute; reflexivity|].
  intros [e E]. vm_compute in E. discriminate.
Qed.

(** C8, as the code has it.  The search has no treatment of its own for a
    window of zero variance; what happens is what the regression routine
    does there.  With [>] a strict order:
    - a window for which the routine returns an [r_value] whose square is
      not strictly greater than zero is never the result;
    - when that holds of every window, the initial dictionary is returned;
    - the [r_squared] of a result is that of the initial dictionary or is
      strictly greater than zero;
    - when the routine raises on a window, and returned on the windows
      before it, the search raises the same exception: the window is not
      skipped. *)
Theorem best_linear_fit_flat_window :
  forall (F : Type) (SF : Scalar F)
         (gt_irrefl : forall a : F, fgt a a = false)
         (gt_trans : forall a b c : F,
             fgt a b = true -> fgt b c = true -> fgt a c = true)
         (regression : list F -> list F -> outcome (F * F * F))
         (self : Voltammetry_CA F) (x_data y_data : list F),
    (forall (f c : fit F) (s : Z),
        _analyze_best_linear_fit regression self x_data y_data = Returns f ->
        window_fit regression x_data y_data (window_size self) s = Returns c ->
        fgt (value (r_squared c)) (of_Z 0) = false ->
        f <> c)
    /\ ((forall s : Z,
            0 <= s < Z.of_nat (length x_data) - window_size self + 1 ->
            exists c : fit F,
              window_fit regression x_data y_data (window_size self) s = Returns c
              /\ fgt (value (r_squared c)) (of_Z 0) = false) ->
        _analyze_best_linear_fit regression self x_data y_data
        = Returns (initial_fit (window_size self)))
    /\ (forall f : fit F,
           _analyze_best_linear_fit regression self x_data y_data = Returns f ->
           f = initial_fit (window_size self)
           \/ fgt (value (r_squared f)) (of_Z 0) = true)
    /\ (forall (s : Z) (e : exn),
           0 <= s < Z.of_nat (length x_data) - window_size self + 1 ->
           (forall s' : Z, 0 <= s' < s ->
              exists v, regression (py_slice x_data s' (s' + window_size self))
                                   (py_slice y_data s' (s' + window_size self))
                        = Returns v) ->
           regression (py_slice x_data s (s + window_size self))
                      (py_slice y_data s (s + window_size self))
           = Raises e ->
           _analyze_best_linear_fit regression self x_data y_data = Raises e).
Proof.
  intros F SF gt_irrefl gt_trans regression self x_data y_data.
  assert (Hsign : forall f : fit F,
             _analyze_best_linear_fit regression self x_data y_data = Returns f ->
             f = initial_fit (window_size self)
             \/ fgt (value (r_squared f)) (of_Z 0) = true).
  { intros f E.
    destruct (search_earliest_maximum regression self x_data y_data
                gt_irrefl gt_trans f E)
      as [[-> _]|(t & _ & _ & Hpos & _)]; [left; reflexivity | right; exact Hpos]. }
  split; [|split; [|split]].
  - intros f c s E Ec Hc Heq. subst c.
    destruct (Hsign f E) as [->|Hpos].
    + apply window_fit_inv in Ec as (sl & ic & rv & _ & Habs). discriminate.
    + rewrite Hpos in Hc. discriminate.
  - apply search_no_improvement.
  - exact Hsign.
  - intros s e Hs Hbefore Es. apply (search_first_raise regression self x_data y_data s e Hs).
    + intros s' Hs'. apply window_fit_total. apply Hbefore. exact Hs'.
    + apply window_fit_raises. exact Es.
Qed.

(** In binary64, with the model of scipy's routine.  On a flat [y] every
    window has [r_value = 0] and the initial dictionary is returned; when the
    second window has identical [x], the routine raises there and so does the
    search. *)
Lemma best_linear_fit_flat_window_witness :
  _analyze_best_linear_fit linregress (measurement [] [] 2 1 1%float 1%float)
                           [1; 2; 3]%float [5; 5; 5]%float
  = Returns (initial_fit 2)
  /\ _analyze_best_linear_fit linregress (measurement [] [] 2 1 1%float 1%float)
                              [1; 2; 2]%float [5; 6; 8]%float
     = Raises (ValueError
                 "Cannot calculate a linear regression if all x values are identical").
Proof.
  pose proof (best_linear_fit_flat_window float float_scalar
                float_gt_irrefl float_gt_trans linregress
                (measurement [] [] 2 1 1%float 1%float)) as T.
  split.
  - apply (proj1 (proj2 (T [1; 2; 3]%float [5; 5; 5]%float))).
    intros s Hs. cbn in Hs.
    assert (Hcases : s = 0 \/ s = 1) by lia.
    assert (E0 : window_fit linregress [1; 2; 3]%float [5; 5; 5]%float 2 0
                 = Returns {| start := 0; end_ := 2; r_squared := NpFloat 0%float;
                              slope := NpFloat 0%float;
                              intercept := NpFloat 5%float |})
      by (vm_compute; reflexivity).
    assert (E1 : window_fit linregress [1; 2; 3]%float [5; 5; 5]%float 2 1
                 = Returns {| start := 1; end_ := 3; r_squared := NpFloat 0%float;
                              slope := NpFloat 0%float;
                              intercept := NpFloat 5%float |})
      by (vm_compute; reflexivity).
    destruct Hcases as [-> | ->]; eexists;
      (split; [eassumption | vm_compute; reflexivity]).
  - apply (proj2 (proj2 (proj2 (T [1; 2; 2]%float [5; 6; 8]%float))) 1).
    + cbn. lia.
    + intros s' Hs'. assert (Hz : s' = 0) by lia. subst s'.
      exists (1%float, 4%float, 1%float). vm_compute. reflexivity.
    + vm_compute. reflexivity.
Defined.

(** C8 fails as stated, with the model of scipy's routine.  A single window
    with identical [x]: the search raises instead of returning the initial
    dictionary.  A later window with identical [x]: the search raises instead
    of skipping it.  And a window whose slope overflows: the result carries an
    infinite slope and intercept. *)
Lemma flat_window_raises :
  _analyze_best_linear_fit linregress (measurement [] [] 2 1 1%float 1%float)
                           [3; 3]%float [1; 2]%float
  = Raises (ValueError
              "Cannot calculate a linear regression if all x values are identical")
  /\ _analyze_best_linear_fit linregress (measurement [] [] 2 1 1%float 1%float)
                              [1; 2; 2; 3]%float [1; 2; 4; 8]%float
     = Raises (ValueError
                 "Cannot calculate a linear regression if all x values are identical")
  /\ _analyze_best_linear_fit linregress (measurement [] [] 2 1 1%float 1%float)
                              [0; 0x1p-530]%float [0; 0x1p+500]%float
     = Returns {| start := 0; end_ := 2; r_squared := NpFloat 1%float;
                  slope := NpFloat infinity; intercept := NpFloat neg_infinity |}.
Proof. repeat split; vm_compute; reflexivity. Qed.

(** ** The constructor *)

(** C4.  When no charge list is given, the attribute [cumulative_charge] of
    the constructed object is [None], not the computed sequence:
    [_calculate_charge] assigns the cumulative sums to the attribute and
    returns [None], and the constructor assigns what the call returned.  The
    constructor does return when the base class returns series of one
    length. *)
Theorem init_cumulative_charge_is_None :
  forall (F : Type) (SF : Scalar F)
         (Voltammetry__init__ :
            list F -> list F -> list F -> string -> string -> Z ->
            outcome (Voltammetry F))
         (current0 voltage0 time0 : list F) (args : arguments F),
    (forall self : Voltammetry_CA F,
        __init__ Voltammetry__init__ current0 voltage0 time0 args None = Returns self ->
        cumulative_charge self = None)
    /\ (forall (self self' : Voltammetry_CA F) (returned : option (list F)),
           _calculate_charge self = Returns (self', returned) ->
           returned = None
           /\ exists charges : list F,
               np_mul (np_diff (np_time self)) (from1 (np_current self))
               = Returns charges
               /\ cumulative_charge self'
                  = Some (np_cumsum (np_insert_zero charges)))
    /\ (forall base : Voltammetry F,
           Voltammetry__init__ voltage0 current0 time0
                               (measured_current_units args)
                               (measured_time_units args)
                               (arg_number_of_electrons args)
           = Returns base ->
           length (base_time base) = length (base_current base) ->
           exists self : Voltammetry_CA F,
             __init__ Voltammetry__init__ current0 voltage0 time0 args None
             = Returns self
             /\ np_time self = base_time base
             /\ np_current self = base_current base
             /\ cumulative_charge self = None).
Proof.
  intros F SF Vinit current0 voltage0 time0 args.
  split; [|split].
  - intros self. unfold __init__.
    destruct (Vinit _ _ _ _ _ _) as [base|e]; cbn; [|discriminate].
    destruct (_calculate_charge _) as [[self' returned]|e] eqn:Ec; cbn;
      [|discriminate].
    apply calculate_charge_returns_None in Ec as [-> _].
    intros E. injection E as <-. reflexivity.
  - intros self self' returned Ec.
    apply calculate_charge_returns_None in Ec as [-> (charges & Em & ->)].
    split; [reflexivity|]. exists charges. split; [exact Em | reflexivity].
  - intros base Eb Hlen. unfold __init__. rewrite Eb. cbn.
    rewrite calculate_charge_equal_lengths by exact Hlen. cbn.
    eexists. split; [reflexivity|]. repeat split.
Qed.

(** The constructor on [time = [0,1,2,3]], [current = [0,2,2,2]], with a base class
    that stores the series as they are: the charges [[0, 2, 4, 6]] are
    computed and lost. *)
Lemma init_cumulative_charge_is_None_witness :
  exists self : Voltammetry_CA float,
    __init__ store_series [0; 2; 2; 2]%float [] [0; 1; 2; 3]%float no_arguments None
    = Returns self
    /\ np_time self = [0; 1; 2; 3]%float
    /\ np_current self = [0; 2; 2; 2]%float
    /\ cumulative_charge self = None.
Proof.
  apply (proj2 (proj2 (init_cumulative_charge_is_None float float_scalar store_series
                         [0; 2; 2; 2]%float [] [0; 1; 2; 3]%float no_arguments))
               {| base_voltage := []; base_current := [0; 2; 2; 2]%float;
                  base_time := [0; 1; 2; 3]%float; base_number_of_electrons := 1 |}).
  - reflexivity.
  - reflexivity.
Defined.

(** ** The reaction-order classifier *)

(** C2.  When the two searches, of [ln(current[1:])] against [time[1:]]
    and of [1/current[1:]] against [time[1:]], with the window size of the
    object, return [first] and [second], the classifier stores order 1 and
    the rate constant [-slope(first)] exactly when the [r_squared] of [first]
    is strictly greater than that of [second]; otherwise, a tie included, it
    stores order 2 and the rate constant [slope(second)]. *)
Theorem reaction_kinetics_selection :
  forall (F : Type) (SF : Scalar F)
         (regression : list F -> list F -> outcome (F * F * F))
         (self : Voltammetry_CA F) (first second : fit F),
    _analyze_best_linear_fit regression self (from1 (np_time self))
                             (map flog (from1 (np_current self)))
    = Returns first ->
    _analyze_best_linear_fit regression self (from1 (np_time self))
                             (map (fun i => fdiv (of_Z 1) i) (from1 (np_current self)))
    = Returns second ->
    exists self' : Voltammetry_CA F,
      _analyze_reaction_kinetics regression self = Returns self'
      /\ (fgt (value (r_squared first)) (value (r_squared second)) = true ->
          self' = set_kinetics 1 (py_neg (slope first)) self)
      /\ (fgt (value (r_squared first)) (value (r_squared second)) = false ->
          self' = set_kinetics 2 (slope second) self)
      /\ (reaction_order self' = Some 1
          <-> fgt (value (r_squared first)) (value (r_squared second)) = true)
      /\ (reaction_order self' = Some 1 \/ reaction_order self' = Some 2)
      /\ ((forall a : F, fgt a a = false) ->
          value (r_squared first) = value (r_squared second) ->
          reaction_order self' = Some 2
          /\ reaction_rate_constant self' = Some (slope second)).
Proof.
  intros F SF regression self first second E1 E2.
  unfold _analyze_reaction_kinetics. rewrite E1, E2. cbn.
  destruct (fgt (value (r_squared first)) (value (r_squared second))) eqn:Hgt.
  - exists (set_kinetics 1 (py_neg (slope first)) self).
    split; [reflexivity|]. split; [reflexivity|]. split; [discriminate|].
    split; [split; reflexivity|]. split; [left; reflexivity|].
    intros Hirr Heq. rewrite Heq, Hirr in Hgt. discriminate.
  - exists (set_kinetics 2 (slope second) self).
    split; [reflexivity|]. split; [discriminate|]. split; [reflexivity|].
    split; [split; cbn; intros Habs; discriminate|]. split; [right; reflexivity|].
    intros _ _. split; reflexivity.
Qed.

(** A halving current, in binary64 with the model of scipy's routine and
    windows of three samples: the logarithm is a line, order 1 is selected,
    and the rate constant is near [ln 2]. *)
Lemma reaction_kinetics_selection_witness :
  exists (self' : Voltammetry_CA float) (k : float),
    _analyze_reaction_kinetics
      linregress (measurement [0; 1; 2; 3]%float [16; 8; 4; 2]%float 3 1 1%float 1%float)
    = Returns self'
    /\ reaction_order self' = Some 1
    /\ reaction_rate_constant self' = Some (NpFloat k)
    /\ fgt k 0.5%float = true
    /\ fgt 0.75%float k = true.
Proof.
  set (self := measurement [0; 1; 2; 3]%float [16; 8; 4; 2]%float 3 1 1%float 1%float).
  destruct (_analyze_best_linear_fit linregress self (from1 (np_time self))
              (map flog (from1 (np_current self)))) as [first|e1] eqn:E1;
    [|vm_compute in E1; discriminate].
  destruct (_analyze_best_linear_fit linregress self (from1 (np_time self))
              (map (fun i => fdiv (of_Z 1) i) (from1 (np_current self))))
    as [second|e2] eqn:E2;
    [|vm_compute in E2; discriminate].
  destruct (reaction_kinetics_selection float float_scalar linregress self
              first second E1 E2) as (self' & Ek & Hfirst & _).
  vm_compute in E1. injection E1 as <-.
  vm_compute in E2. injection E2 as <-.
  specialize (Hfirst ltac:(vm_compute; reflexivity)). subst self'.
  eexists. eexists. split; [exact Ek|].
  split; [reflexivity|]. split; [reflexivity|].
  split; vm_compute; reflexivity.
Defined.

(** C5, as the code has it.  The classifier tests no current: [np.log] and
    the reciprocal are applied to every element of [current[1:]], whatever
    its sign.  An exception of the classifier is an exception the regression
    routine raised on a window of one of the two candidates, and when the
    routine never raises the classifier returns an order for every series. *)
Theorem reaction_kinetics_no_domain_check :
  forall (F : Type) (SF : Scalar F)
         (regression : list F -> list F -> outcome (F * F * F))
         (self : Voltammetry_CA F),
    (forall e : exn,
        _analyze_reaction_kinetics regression self = Raises e ->
        exists s : Z,
          0 <= s < Z.of_nat (length (from1 (np_time self))) - window_size self + 1
          /\ (regression
                (py_slice (from1 (np_time self)) s (s + window_size self))
                (py_slice (map flog (from1 (np_current self))) s (s + window_size self))
              = Raises e
              \/ regression
                   (py_slice (from1 (np_time self)) s (s + window_size self))
                   (py_slice (map (fun i => fdiv (of_Z 1) i) (from1 (np_current self)))
                             s (s + window_size self))
                 = Raises e))
    /\ ((forall xs ys : list F, exists v, regression xs ys = Returns v) ->
        exists self' : Voltammetry_CA F,
          _analyze_reaction_kinetics regression self = Returns self'
          /\ (reaction_order self' = Some 1 \/ reaction_order self' = Some 2)).
Proof.
  intros F SF regression self.
  pose (x := from1 (np_time self)).
  pose (y1 := map flog (from1 (np_current self))).
  pose (y2 := map (fun i => fdiv (of_Z 1) i) (from1 (np_current self))).
  split.
  - intros e. unfold _analyze_reaction_kinetics. fold x y1 y2.
    destruct (_analyze_best_linear_fit regression self x y1)
      as [first|e1] eqn:E1; cbn [bind].
    + destruct (_analyze_best_linear_fit regression self x y2)
        as [second|e2] eqn:E2; cbn [bind].
      * destruct (fgt _ _); discriminate.
      * intros E. injection E as <-.
        apply search_raises_inv in E2 as (s & Hs & Es).
        exists s. split; [exact Hs|]. right. apply window_fit_raises. exact Es.
    + intros E. injection E as <-.
      apply search_raises_inv in E1 as (s & Hs & Es).
      exists s. split; [exact Hs|]. left. apply window_fit_raises. exact Es.
  - intros Htotal. unfold _analyze_reaction_kinetics. fold x y1 y2.
    destruct (search_total regression self x y1) as [first E1].
    { intros s _. apply window_fit_total. apply Htotal. }
    destruct (search_total regression self x y2) as [second E2].
    { intros s _. apply window_fit_total. apply Htotal. }
    rewrite E1, E2. cbn [bind].
    destruct (fgt _ _); eexists; (split; [reflexivity|]); cbn; auto.
Qed.

(** A repeated time stamp, in binary64 with the model of scipy's routine:
    the classifier raises, and the exception is the routine's, on the first
    window. *)
Lemma reaction_kinetics_no_domain_check_witness :
  exists s : Z,
    0 <= s < 2
    /\ (linregress (py_slice [1; 1; 3]%float s (s + 2))
                   (py_slice (map flog [8; 3; 2]%float) s (s + 2))
        = Raises (ValueError
                    "Cannot calculate a linear regression if all x values are identical")
        \/ linregress (py_slice [1; 1; 3]%float s (s + 2))
                      (py_slice (map (fun i => fdiv (of_Z 1) i) [8; 3; 2]%float)
                                s (s + 2))
           = Raises (ValueError
                       "Cannot calculate a linear regression if all x values are identical")).
Proof.
  apply (proj1 (reaction_kinetics_no_domain_check float float_scalar linregress
                  (measurement [0; 1; 1; 3]%float [16; 8; 3; 2]%float 2 1 1%float 1%float))).
  vm_compute. reflexivity.
Defined.

(** C5 fails as stated, with the model of scipy's routine.  A negative
    current in the tail: the classifier returns order 2 with rate constant
    [-2].  A zero current in the tail: it returns order 2 with rate constant
    [0].  No exception is raised. *)
Lemma nonpositive_current_is_classified :
  _analyze_reaction_kinetics
    linregress (measurement [0; 1; 2; 3]%float [5; 1; -1; 1]%float 2 1 1%float 1%float)
  = Returns (set_kinetics 2 (NpFloat (-2)%float)
               (measurement [0; 1; 2; 3]%float [5; 1; -1; 1]%float 2 1 1%float 1%float))
  /\ _analyze_reaction_kinetics
       linregress (measurement [0; 1; 2; 3]%float [5; 2; 0; 1]%float 2 1 1%float 1%float)
     = Returns (set_kinetics 2 (PyInt 0)
                  (measurement [0; 1; 2; 3]%float [5; 2; 0; 1]%float 2 1 1%float 1%float)).
Proof. split; vm_compute; reflexivity. Qed.


(** ** The diffusion coefficient *)

(** The model of scipy's routine returns on series of one length whose
    abscissae are not all equal. *)
Lemma linregress_returns {F : Type} `{Scalar F} (x y : list F) :
  x <> [] -> length x = length y ->
  feq (np_amax x) (np_amin x) = false ->
  exists v, linregress x y = Returns v.
Proof.
  intros Hx Hlen Hne. unfold linregress.
  rewrite <- Hlen, Hne, Nat.eqb_refl.
  destruct x as [|u x]; [congruence|]. cbn.
  eexists; reflexivity.
Qed.

(** The model of scipy's routine raises on two or more identical
    abscissae that are not NaN. *)
Lemma linregress_identical_x {F : Type} `{Scalar F} (v : F) (k : nat) (y : list F) :
  feq v v = true -> fgt v v = false -> y <> [] ->
  linregress (repeat v (S (S k))) y
  = Raises (ValueError
              "Cannot calculate a linear regression if all x values are identical").
Proof.
  intros Hrefl Hirr Hy. unfold linregress.
  assert (Hmax : np_amax (repeat v (S (S k))) = v).
  { unfold np_amax. change (tl (repeat v (S (S k)))) with (repeat v (S k)).
    change (hd (of_Z 0) (repeat v (S (S k)))) with v.
    generalize (S k) as j.
    induction j as [|j IH]; cbn [repeat fold_left]; [reflexivity|].
    destruct (np_isnan v), (fgt v v); exact IH. }
  assert (Hmin : np_amin (repeat v (S (S k))) = v).
  { unfold np_amin. change (tl (repeat v (S (S k)))) with (repeat v (S k)).
    change (hd (of_Z 0) (repeat v (S (S k)))) with v.
    generalize (S k) as j.
    induction j as [|j IH]; cbn [repeat fold_left]; [reflexivity|].
    destruct (np_isnan v), (fgt v v); exact IH. }
  rewrite Hmax, Hmin, Hrefl, repeat_length.
  destruct y as [|u y]; [congruence|]. reflexivity.
Qed.

Section RealArithmetic.
Local Open Scope R_scope.
Variable regression : list R -> list R -> outcome (R * R * R).
Variable self : Voltammetry_CA R.

Local Abbreviation n := (number_of_electrons self).
Local Abbreviation area := (area_of_active_material self).
Local Abbreviation concentration := (concentration_of_active_material self).

(** Over the reals [sqrt(1/t)], which the code computes, is [1/sqrt(t)]. *)
Lemma t_inv_sqrt_inverse_sqrt (time : list R) :
  map (fun t => fsqrt (fdiv (of_Z 1) t)) (from1 time) = inverse_sqrt time.
Proof.
  rewrite from1_tl. unfold inverse_sqrt. apply map_ext. intros t. cbn.
  unfold Rdiv. rewrite !Rmult_1_l. apply sqrt_inv.
Qed.

Lemma cottrell_divisor_real :
  cottrell_divisor self
  = IZR n ^ 2 * faraday_constant ^ 2 * area ^ 2 * concentration ^ 2.
Proof. unfold cottrell_divisor. cbn. rewrite mult_IZR. ring. Qed.

Lemma cottrell_divisor_nonzero :
  n <> 0%Z -> area <> 0 -> concentration <> 0 -> cottrell_divisor self <> 0.
Proof.
  intros Hn Ha Hc. rewrite cottrell_divisor_real.
  assert (Hz : IZR n <> 0) by (apply not_0_IZR; exact Hn).
  assert (Hf : @faraday_constant R _ <> 0) by (cbn; lra).
  apply Rmult_integral_contrapositive_currified;
    [apply Rmult_integral_contrapositive_currified;
     [apply Rmult_integral_contrapositive_currified|]|];
    apply pow_nonzero; assumption.
Qed.

(** With a divisor that is not zero the computation stores the Cottrell
    value of the slope the search returned, and raises what the search
    raises. *)
Lemma diffusion_coefficient_real (f : fit R) :
  cottrell_divisor self <> 0 ->
  _analyze_best_linear_fit regression self
    (map (fun t => fsqrt (fdiv (of_Z 1) t)) (from1 (np_time self)))
    (from1 (np_current self)) = Returns f ->
  _calculate_diffusion_coefficient regression self
  = Returns (set_diffusion_coefficient
               (Some (value (slope f) ^ 2 * PI
                      / (IZR n ^ 2 * faraday_constant ^ 2 * area ^ 2
                         * concentration ^ 2)))
               self).
Proof.
  intros Hd E. unfold _calculate_diffusion_coefficient. rewrite E. cbn [bind].
  rewrite <- cottrell_divisor_real.
  destruct (slope f) as [z|sl]; cbn [value].
  - cbn [feq R_scalar]. destruct (Req_dec_T _ _) as [Hz|_]; [contradiction|].
    do 3 f_equal. cbn. rewrite !mult_IZR. unfold Rdiv. ring.
  - do 3 f_equal. cbn. unfold Rdiv. ring.
Qed.

Lemma diffusion_coefficient_raises (e : exn) :
  _analyze_best_linear_fit regression self
    (map (fun t => fsqrt (fdiv (of_Z 1) t)) (from1 (np_time self)))
    (from1 (np_current self)) = Raises e ->
  _calculate_diffusion_coefficient regression self = Raises e.
Proof.
  intros E. unfold _calculate_diffusion_coefficient. rewrite E. reflexivity.
Qed.

Lemma cottrell_nonnegative (sl : R) :
  0 <= sl ^ 2 * PI
       / (IZR n ^ 2 * faraday_constant ^ 2 * area ^ 2 * concentration ^ 2).
Proof.
  apply Rmult_le_pos.
  - apply Rmult_le_pos; [apply pow2_ge_0 | left; apply PI_RGT_0].
  - destruct (Req_dec (IZR n ^ 2 * faraday_constant ^ 2 * area ^ 2
                       * concentration ^ 2) 0) as [->|Hne].
    + rewrite Rinv_0. lra.
    + left. apply Rinv_0_lt_compat.
      assert (Hge : 0 <= IZR n ^ 2 * faraday_constant ^ 2 * area ^ 2
                         * concentration ^ 2).
      { apply Rmult_le_pos; [apply Rmult_le_pos; [apply Rmult_le_pos|]|];
          apply pow2_ge_0. }
      lra.
Qed.
End RealArithmetic.


(** ** Series over the reals for the examples *)

Lemma two_abscissae_differ (a b : R) :
  a <> b -> feq (np_amax [a; b]) (np_amin [a; b]) = false.
Proof.
  intros Hab. unfold np_amax, np_amin, np_isnan. cbn.
  destruct (Req_dec_T a a) as [_|Ha]; [|congruence].
  destruct (Req_dec_T b b) as [_|Hb]; [|congruence].
  cbn.
  destruct (Rlt_dec a b), (Rlt_dec b a); cbn;
    match goal with
    | |- context [Req_dec_T ?u ?v] => destruct (Req_dec_T u v)
    end; try reflexivity; try lra; congruence.
Qed.

Lemma sqrt_4 : sqrt 4 = 2%R.
Proof. replace 4%R with (2 * 2)%R by lra. apply sqrt_square. lra. Qed.

Lemma times_0_1_4_increase : strictly_increasing [0; 1; 4]%R.
Proof.
  intros i Hi. cbn in Hi.
  destruct i as [|[|i]]; cbn; try lra. lia.
Qed.

(** The search on the Cottrell coordinates of [time = [0, 1, 4]],
    [current = [9, 4, 2]] returns: its one window has the abscissae [1] and
    [1/2]. *)
Lemma cottrell_search_returns (area concentration : R) (n : Z) :
  exists f : fit R,
    _analyze_best_linear_fit
      linregress (measurement [0; 1; 4]%R [9; 4; 2]%R 2 n area concentration)
      (inverse_sqrt [0; 1; 4]%R) (tl [9; 4; 2]%R)
    = Returns f.
Proof.
  apply search_total. intros s Hs.
  assert (Hz : s = 0) by (cbn in Hs; lia). subst s.
  apply window_fit_total.
  change (exists v, linregress [(1 / sqrt 1)%R; (1 / sqrt 4)%R] [4; 2]%R = Returns v).
  apply linregress_returns; [discriminate | reflexivity |].
  apply two_abscissae_differ. rewrite sqrt_1, sqrt_4. lra.
Qed.





(** * Further properties of the code *)

(** ** Cumulative charge: edges and invariances *)

Lemma stored_charge_equal_lengths {F : Type} `{Scalar F} (self : Voltammetry_CA F) :
  length (np_time self) = length (np_current self) ->
  stored_charge self
  = Returns (Some (of_Z 0 :: cumsum_from (of_Z 0)
                           (interval_charges (np_time self) (np_current self)))).
Proof.
  intros E. unfold stored_charge.
  rewrite calculate_charge_equal_lengths by exact E. reflexivity.
Qed.

(** X1.  For series of one length [n], the empty series and a single sample
    included, [_calculate_charge] returns and stores [max(n, 1)] charges;
    with fewer than two samples it stores exactly [[0]]. *)
Theorem calculate_charge_short_series :
  forall (F : Type) (SF : Scalar F) (self : Voltammetry_CA F),
    length (np_time self) = length (np_current self) ->
    exists q : list F,
      _calculate_charge self = Returns (set_cumulative_charge (Some q) self, None)
      /\ length q = Nat.max 1 (length (np_time self))
      /\ ((length (np_time self) <= 1)%nat -> q = [of_Z 0]).
Proof.
  intros F SF self E.
  eexists. split; [apply calculate_charge_equal_lengths; exact E|].
  assert (Hlen : length (interval_charges (np_time self) (np_current self))
                 = pred (length (np_time self)))
    by (apply interval_charges_length; exact E).
  split.
  - cbn [length]. rewrite cumsum_from_length, Hlen. lia.
  - intros Hshort.
    destruct (interval_charges (np_time self) (np_current self)) as [|v l];
      [reflexivity|]. cbn [length] in Hlen. lia.
Qed.

Lemma calculate_charge_short_series_witness :
  exists q : list float,
    _calculate_charge (measurement [] [] 10 1 1%float 1%float)
    = Returns (set_cumulative_charge (Some q) (measurement [] [] 10 1 1%float 1%float),
               None)
    /\ length q = 1%nat
    /\ ((0 <= 1)%nat -> q = [0%float]).
Proof.
  exact (calculate_charge_short_series float float_scalar
           (measurement [] [] 10 1 1%float 1%float) eq_refl).
Defined.

Lemma np_mul_raises_iff {F : Type} `{Scalar F} (a b : list F) :
  (exists e, np_mul a b = Raises e)
  <-> (length a <> length b /\ length a <> 1%nat /\ length b <> 1%nat).
Proof.
  unfold np_mul. destruct (Nat.eqb_spec (length a) (length b)) as [E|E].
  - split; [intros [e He]; discriminate | intros [Habs _]; contradiction].
  - destruct b as [|v [|v' b]]; destruct a as [|u [|u' a]]; cbn in *;
      (split; [intros [e He]; try discriminate; repeat split; lia
              | intros (_ & Ha & Hb); try lia; eexists; reflexivity]).
Qed.

(** X2.  [_calculate_charge] raises exactly when [np.diff(time)] and
    [current[1:]] have different lengths, neither of them one; the exception
    is numpy's [ValueError].  When they differ and one of them has a single
    element, numpy broadcasts it and the method returns. *)
Theorem calculate_charge_raises_iff :
  forall (F : Type) (SF : Scalar F) (self : Voltammetry_CA F),
    ((exists e, _calculate_charge self = Raises e)
     <-> (pred (length (np_time self)) <> pred (length (np_current self))
          /\ pred (length (np_time self)) <> 1%nat
          /\ pred (length (np_current self)) <> 1%nat))
    /\ (forall e, _calculate_charge self = Raises e ->
          e = ValueError "operands could not be broadcast together").
Proof.
  intros F SF self.
  assert (Hinv : forall e, _calculate_charge self = Raises e <->
                   np_mul (np_diff (np_time self)) (from1 (np_current self)) = Raises e).
  { intros e. unfold _calculate_charge.
    destruct (np_mul _ _) as [l|e']; cbn; split; congruence. }
  split.
  - rewrite <- (np_diff_length (np_time self)), <- (tl_length (np_current self)),
      <- from1_tl, <- np_mul_raises_iff.
    split; intros [e He]; exists e; apply Hinv; exact He.
  - intros e He. apply Hinv in He. unfold np_mul in He.
    destruct (Nat.eqb _ _); [discriminate|].
    destruct (np_diff (np_time self)) as [|u [|u' a]];
      destruct (from1 (np_current self)) as [|v [|v' b]];
      try discriminate; injection He as <-; reflexivity.
Qed.

(** X3.  [_calculate_charge] never reads [current[0]]: two objects with
    the same times and the same [current[1:]] get the same charges (or the
    same exception). *)
Theorem calculate_charge_ignores_first_current :
  forall (F : Type) (SF : Scalar F) (self self' : Voltammetry_CA F),
    np_time self = np_time self' ->
    tl (np_current self) = tl (np_current self') ->
    stored_charge self = stored_charge self'.
Proof.
  intros F SF self self' Ht Hc.
  unfold stored_charge, _calculate_charge.
  rewrite !from1_tl, Ht, Hc.
  destruct (np_mul _ _) as [charges|e]; reflexivity.
Qed.

Lemma calculate_charge_ignores_first_current_witness :
  stored_charge (measurement [0; 1; 2; 3]%float [0; 2; 2; 2]%float 10 1 1%float 1%float)
  = stored_charge (measurement [0; 1; 2; 3]%float [7; 2; 2; 2]%float 10 1 1%float 1%float).
Proof.
  exact (calculate_charge_ignores_first_current float float_scalar
           (measurement [0; 1; 2; 3]%float [0; 2; 2; 2]%float 10 1 1%float 1%float)
           (measurement [0; 1; 2; 3]%float [7; 2; 2; 2]%float 10 1 1%float 1%float)
           eq_refl eq_refl).
Defined.

Section ChargeOverReals.
Local Open Scope R_scope.

Lemma np_diff_cons {F : Type} `{Scalar F} (u v : F) (a : list F) :
  np_diff (u :: v :: a) = fsub v u :: np_diff (v :: a).
Proof. reflexivity. Qed.

Lemma np_diff_shift (c : R) (a : list R) :
  np_diff (map (fun t => t + c) a) = np_diff a.
Proof.
  induction a as [|u a IH]; [reflexivity|].
  destruct a as [|v a]; [reflexivity|].
  cbn [map] in *. rewrite !np_diff_cons, IH. f_equal. cbn. ring.
Qed.


Lemma zip_with_scale (k : R) (a b : list R) :
  zip_with fmul a (map (Rmult k) b) = map (Rmult k) (zip_with fmul a b).
Proof.
  revert b; induction a as [|u a IH]; intros [|v b]; cbn; try reflexivity.
  rewrite <- IH. f_equal. ring.
Qed.

Lemma np_mul_scale (k : R) (a b : list R) :
  np_mul a (map (Rmult k) b)
  = (charges <- np_mul a b ;; Returns (map (Rmult k) charges)).
Proof.
  assert (Hleft : forall (v : R) (l : list R),
             map (fun u => fmul u (k * v)) l
             = map (Rmult k) (map (fun u => fmul u v) l)).
  { intros v l. rewrite map_map. apply map_ext. intros u. cbn. ring. }
  assert (Hright : forall (u : R) (l : list R),
             map (fun v => fmul u v) (map (Rmult k) l)
             = map (Rmult k) (map (fun v => fmul u v) l)).
  { intros u l. rewrite !map_map. apply map_ext. intros v. cbn. ring. }
  unfold np_mul. rewrite length_map.
  destruct (Nat.eqb (length a) (length b)).
  - cbn. rewrite zip_with_scale. reflexivity.
  - destruct b as [|v [|v' b]].
    + destruct a as [|u [|u' a]]; reflexivity.
    + cbn [map bind]. rewrite Hleft. destruct a as [|u [|u' a]]; reflexivity.
    + destruct a as [|u [|u' a]]; try reflexivity.
      change (map (Rmult k) (v :: v' :: b))
        with (k * v :: k * v' :: map (Rmult k) b).
      cbn [bind]. f_equal. exact (Hright u (v :: v' :: b)).
Qed.

Lemma cumsum_from_scale (k : R) (a : list R) (acc : R) :
  cumsum_from (k * acc) (map (Rmult k) a) = map (Rmult k) (cumsum_from acc a).
Proof.
  revert acc; induction a as [|v a IH]; intros acc; cbn; [reflexivity|].
  replace (k * acc + k * v) with (k * (acc + v)) by ring.
  rewrite IH. reflexivity.
Qed.


Lemma cumsum_step {F : Type} `{Scalar F} (a : list F) (acc d : F) (i : nat) :
  (i < length a)%nat ->
  nth (S i) (acc :: cumsum_from acc a) d
  = fadd (nth i (acc :: cumsum_from acc a) d) (nth i a d).
Proof.
  revert acc i; induction a as [|v a IH]; intros acc i Hi; cbn in Hi; [lia|].
  destruct i as [|i]; [reflexivity|].
  change (nth (S (S i)) (acc :: cumsum_from acc (v :: a)) d)
    with (nth (S i) (fadd acc v :: cumsum_from (fadd acc v) a) d).
  change (nth (S i) (acc :: cumsum_from acc (v :: a)) d)
    with (nth i (fadd acc v :: cumsum_from (fadd acc v) a) d).
  change (nth (S i) (v :: a) d) with (nth i a d).
  apply IH. lia.
Qed.


End ChargeOverReals.

(** ** The search and more data *)

Lemma py_slice_app {A : Type} (l l' : list A) (s w : Z) :
  0 <= s -> 0 <= w -> s + w <= Z.of_nat (length l) ->
  py_slice (l ++ l') s (s + w) = py_slice l s (s + w).
Proof.
  intros Hs Hw Hl. unfold py_slice, py_bound. rewrite length_app.
  destruct (s <? 0) eqn:E1; [apply Z.ltb_lt in E1; lia|].
  destruct (s + w <? 0) eqn:E2; [apply Z.ltb_lt in E2; lia|].
  replace (Z.min s (Z.of_nat (length l + length l'))) with s by lia.
  replace (Z.min (s + w) (Z.of_nat (length l + length l'))) with (s + w) by lia.
  replace (Z.min s (Z.of_nat (length l))) with s by lia.
  replace (Z.min (s + w) (Z.of_nat (length l))) with (s + w) by lia.
  rewrite skipn_app.
  replace (Z.to_nat s - length l)%nat with 0%nat by lia.
  cbn [skipn]. rewrite firstn_app.
  replace (Z.to_nat (s + w - s) - length (skipn (Z.to_nat s) l))%nat with 0%nat
    by (rewrite length_skipn; lia).
  cbn [firstn]. apply app_nil_r.
Qed.

Lemma window_fit_app {F : Type} `{Scalar F}
      (regression : list F -> list F -> outcome (F * F * F))
      (x y x' y' : list F) (w s : Z) :
  length x = length y ->
  0 <= s -> 0 <= w -> s + w <= Z.of_nat (length x) ->
  window_fit regression (x ++ x') (y ++ y') w s = window_fit regression x y w s.
Proof.
  intros E Hs Hw Hl. unfold window_fit.
  rewrite !py_slice_app by (rewrite <- ?E; lia). reflexivity.
Qed.

(** X7.  With [>] a strict order and a window of at least one sample,
    more data never lowers the best fit: the [r_squared] the search returns
    on [x], [y] is not strictly greater than the one it returns on the
    series extended by further samples. *)
Theorem best_linear_fit_grows_with_data :
  forall (F : Type) (SF : Scalar F)
         (gt_irrefl : forall a : F, fgt a a = false)
         (gt_trans : forall a b c : F,
             fgt a b = true -> fgt b c = true -> fgt a c = true)
         (regression : list F -> list F -> outcome (F * F * F))
         (self : Voltammetry_CA F) (x y x' y' : list F) (f f' : fit F),
    length x = length y ->
    1 <= window_size self ->
    _analyze_best_linear_fit regression self x y = Returns f ->
    _analyze_best_linear_fit regression self (x ++ x') (y ++ y') = Returns f' ->
    fgt (value (r_squared f)) (value (r_squared f')) = false.
Proof.
  intros F SF gt_irrefl gt_trans regression self x y x' y' f f' E Hw Ef Ef'.
  pose proof (search_earliest_maximum regression self (x ++ x') (y ++ y')
                gt_irrefl gt_trans f' Ef') as Hmax.
  apply search_result in Ef as [->|(s & Hs & Es)].
  - (* nothing was selected on the shorter series *)
    cbn [value r_squared initial_fit].
    destruct Hmax as [[-> _]|(t & _ & _ & Hpos & _)].
    + apply gt_irrefl.
    + destruct (fgt (of_Z 0) (value (r_squared f'))) eqn:Hgt; [|reflexivity].
      rewrite <- (gt_irrefl (of_Z 0)). symmetry.
      exact (gt_trans _ _ _ Hgt Hpos).
  - (* the selected window is a window of the longer series *)
    assert (Es' : window_fit regression (x ++ x') (y ++ y') (window_size self) s
                  = Returns f)
      by (rewrite window_fit_app by lia; exact Es).
    assert (Hin : (Z.to_nat s
                   < Z.to_nat (Z.of_nat (length (x ++ x')) - window_size self + 1))%nat)
      by (rewrite length_app; lia).
    destruct Hmax as [[-> Hall]|(t & _ & _ & _ & Hall)].
    + destruct (Hall _ Hin) as (c & Ec & Hc).
      rewrite Z2Nat.id, Es' in Ec by lia. injection Ec as <-. exact Hc.
    + destruct (Hall _ Hin) as (c & Ec & Hc & _).
      rewrite Z2Nat.id, Es' in Ec by lia. injection Ec as <-. exact Hc.
Qed.

(** In binary64, with the model of scipy's routine: three samples that
    are not on a line, then a fourth that puts the last three on one. *)
Lemma best_linear_fit_grows_with_data_witness :
  exists f f' : fit float,
    _analyze_best_linear_fit linregress (measurement [] [] 3 1 1%float 1%float)
                             [1; 2; 3]%float [1; 2; 4]%float
    = Returns f
    /\ _analyze_best_linear_fit linregress (measurement [] [] 3 1 1%float 1%float)
                                ([1; 2; 3] ++ [4])%float ([1; 2; 4] ++ [6])%float
       = Returns f'
    /\ fgt (value (r_squared f)) (value (r_squared f')) = false
    /\ start f = 0 /\ start f' = 1.
Proof.
  destruct (_analyze_best_linear_fit linregress (measurement [] [] 3 1 1%float 1%float)
              [1; 2; 3]%float [1; 2; 4]%float) as [f|e] eqn:E;
    [|vm_compute in E; discriminate].
  destruct (_analyze_best_linear_fit linregress (measurement [] [] 3 1 1%float 1%float)
              ([1; 2; 3] ++ [4])%float ([1; 2; 4] ++ [6])%float) as [f'|e'] eqn:E';
    [|vm_compute in E'; discriminate].
  exists f, f'. split; [reflexivity|]. split; [reflexivity|].
  split.
  - exact (best_linear_fit_grows_with_data
             float float_scalar float_gt_irrefl float_gt_trans linregress
             (measurement [] [] 3 1 1%float 1%float)
             [1; 2; 3]%float [1; 2; 4]%float [4]%float [6]%float f f'
             eq_refl ltac:(cbn; lia) E E').
  - vm_compute in E. injection E as <-.
    vm_compute in E'. injection E' as <-.
    split; reflexivity.
Defined.

(** ** The diffusion coefficient and the classifier at the edges *)

Section AnalysisEdges.
Context {F : Type} `{Scalar F}.
Variable regression : list F -> list F -> outcome (F * F * F).

(** A result whose slope is an [int] is the initial dictionary. *)
Lemma search_int_slope (self : Voltammetry_CA F) (x y : list F) (f : fit F) (z : Z) :
  _analyze_best_linear_fit regression self x y = Returns f ->
  slope f = PyInt z ->
  f = initial_fit (window_size self).
Proof.
  intros E Hz. apply search_result in E as [->|(s & _ & Es)]; [reflexivity|].
  apply window_fit_inv in Es as (sl & ic & rv & _ & ->). discriminate.
Qed.

(** The search reads nothing of the object but its window size. *)
Lemma search_reads_window_size (self self' : Voltammetry_CA F) (x y : list F) :
  window_size self = window_size self' ->
  _analyze_best_linear_fit regression self x y
  = _analyze_best_linear_fit regression self' x y.
Proof. intros E. unfold _analyze_best_linear_fit. rewrite E. reflexivity. Qed.

Lemma cottrell_divisor_reads (self self' : Voltammetry_CA F) :
  number_of_electrons self = number_of_electrons self' ->
  area_of_active_material self = area_of_active_material self' ->
  concentration_of_active_material self = concentration_of_active_material self' ->
  cottrell_divisor self = cottrell_divisor self'.
Proof. intros En Ea Ec. unfold cottrell_divisor. rewrite En, Ea, Ec. reflexivity. Qed.

(** The method stores what [stored_diffusion] reads, and touches nothing
    else. *)
Lemma diffusion_coefficient_as_stored (self : Voltammetry_CA F) :
  _calculate_diffusion_coefficient regression self
  = (d <- stored_diffusion regression self ;;
     Returns (set_diffusion_coefficient d self)).
Proof.
  unfold stored_diffusion, _calculate_diffusion_coefficient.
  destruct (_analyze_best_linear_fit _ _ _ _) as [f|e]; cbn [bind]; [|reflexivity].
  destruct (slope f) as [z|sl]; [destruct (feq _ _)|]; reflexivity.
Qed.

Lemma stored_diffusion_reads (self self' : Voltammetry_CA F) :
  tl (np_time self) = tl (np_time self') ->
  tl (np_current self) = tl (np_current self') ->
  window_size self = window_size self' ->
  number_of_electrons self = number_of_electrons self' ->
  area_of_active_material self = area_of_active_material self' ->
  concentration_of_active_material self = concentration_of_active_material self' ->
  stored_diffusion regression self = stored_diffusion regression self'.
Proof.
  intros Et Ec Ew En Ea Ek.
  unfold stored_diffusion, _calculate_diffusion_coefficient.
  rewrite !from1_tl, Et, Ec, (search_reads_window_size self self') by exact Ew.
  rewrite (cottrell_divisor_reads self self') by assumption.
  destruct (_analyze_best_linear_fit _ _ _ _) as [f|e]; cbn [bind]; [|reflexivity].
  destruct (slope f) as [z|sl]; [destruct (feq _ _)|]; reflexivity.
Qed.

Lemma reaction_kinetics_as_stored (self : Voltammetry_CA F) :
  _analyze_reaction_kinetics regression self
  = (k <- stored_kinetics regression self ;;
     match k with
     | (Some o, Some r) => Returns (set_kinetics o r self)
     | _ => Returns self
     end).
Proof.
  unfold stored_kinetics, _analyze_reaction_kinetics.
  destruct (_analyze_best_linear_fit _ _ _ (map flog _)) as [f1|e1];
    cbn [bind]; [|reflexivity].
  destruct (_analyze_best_linear_fit _ _ _ _) as [f2|e2]; cbn [bind]; [|reflexivity].
  destruct (fgt _ _); reflexivity.
Qed.

Lemma stored_kinetics_reads (self self' : Voltammetry_CA F) :
  tl (np_time self) = tl (np_time self') ->
  tl (np_current self) = tl (np_current self') ->
  window_size self = window_size self' ->
  stored_kinetics regression self = stored_kinetics regression self'.
Proof.
  intros Et Ec Ew.
  unfold stored_kinetics, _analyze_reaction_kinetics.
  rewrite !from1_tl, Et, Ec.
  rewrite (search_reads_window_size self self' _ (map flog _)) by exact Ew.
  rewrite (search_reads_window_size self self' _ (map (fun i => fdiv (of_Z 1) i) _))
    by exact Ew.
  destruct (_analyze_best_linear_fit _ _ _ (map flog _)) as [f1|e1];
    cbn [bind]; [|reflexivity].
  destruct (_analyze_best_linear_fit _ _ _ _) as [f2|e2]; cbn [bind]; [|reflexivity].
  destruct (fgt _ _); reflexivity.
Qed.
End AnalysisEdges.




(** X10.  With [0 > 0] false, when the series after its first sample is
    shorter than the window, the classifier fits nothing: the two candidates
    tie at [r_squared = 0] and it stores order 2 with the rate constant [0]
    of the initial dictionary, whatever the currents. *)
Theorem reaction_kinetics_short_series :
  forall (F : Type) (SF : Scalar F)
         (regression : list F -> list F -> outcome (F * F * F))
         (self : Voltammetry_CA F),
    fgt (of_Z 0) (of_Z 0) = false ->
    Z.of_nat (length (tl (np_time self))) < window_size self ->
    _analyze_reaction_kinetics regression self
    = Returns (set_kinetics 2 (PyInt 0) self).
Proof.
  intros F SF regression self Hirr Hshort.
  unfold _analyze_reaction_kinetics.
  rewrite !search_no_window by (rewrite from1_tl; exact Hshort).
  cbn [bind value r_squared initial_fit slope]. rewrite Hirr. reflexivity.
Qed.

Lemma reaction_kinetics_short_series_witness :
  _analyze_reaction_kinetics
    linregress (measurement [0; 1; 2]%float [5; 3; -2]%float 10 1 1%float 1%float)
  = Returns (set_kinetics 2 (PyInt 0)
               (measurement [0; 1; 2]%float [5; 3; -2]%float 10 1 1%float 1%float)).
Proof.
  apply reaction_kinetics_short_series.
  - vm_compute. reflexivity.
  - cbn. lia.
Defined.

(** X11.  [_calculate_diffusion_coefficient] never reads the first sample:
    two objects that agree on [time[1:]], [current[1:]], the window size and
    the three parameters get the same diffusion coefficient (or the same
    exception). *)
Theorem diffusion_coefficient_discards_first_sample :
  forall (F : Type) (SF : Scalar F)
         (regression : list F -> list F -> outcome (F * F * F))
         (self self' : Voltammetry_CA F),
    tl (np_time self) = tl (np_time self') ->
    tl (np_current self) = tl (np_current self') ->
    window_size self = window_size self' ->
    number_of_electrons self = number_of_electrons self' ->
    area_of_active_material self = area_of_active_material self' ->
    concentration_of_active_material self = concentration_of_active_material self' ->
    stored_diffusion regression self = stored_diffusion regression self'.
Proof.
  intros F SF regression self self'. apply stored_diffusion_reads.
Qed.

Lemma diffusion_coefficient_discards_first_sample_witness :
  stored_diffusion linregress
    (measurement [0; 1; 4; 16]%float [9; 4; 2; 1]%float 2 1 1%float 1%float)
  = stored_diffusion linregress
      (measurement [-3; 1; 4; 16]%float [0; 4; 2; 1]%float 2 1 1%float 1%float).
Proof.
  apply diffusion_coefficient_discards_first_sample; reflexivity.
Defined.

(** X12.  [_analyze_reaction_kinetics] never reads the first sample: two
    objects that agree on [time[1:]], [current[1:]] and the window size get
    the same order and rate constant (or the same exception). *)
Theorem reaction_kinetics_discards_first_sample :
  forall (F : Type) (SF : Scalar F)
         (regression : list F -> list F -> outcome (F * F * F))
         (self self' : Voltammetry_CA F),
    tl (np_time self) = tl (np_time self') ->
    tl (np_current self) = tl (np_current self') ->
    window_size self = window_size self' ->
    stored_kinetics regression self = stored_kinetics regression self'.
Proof.
  intros F SF regression self self'. apply stored_kinetics_reads.
Qed.

Lemma reaction_kinetics_discards_first_sample_witness :
  stored_kinetics linregress
    (measurement [0; 1; 2; 3]%float [16; 8; 4; 2]%float 3 1 1%float 1%float)
  = stored_kinetics linregress
      (measurement [-1; 1; 2; 3]%float [0; 8; 4; 2]%float 3 1 1%float 1%float).
Proof.
  apply reaction_kinetics_discards_first_sample; reflexivity.
Defined.

(** ** [analyze] and [perform_all_actions] *)

Section DriverFacts.
Context {F : Type} `{Scalar F}.
Variable regression : list F -> list F -> outcome (F * F * F).

(** The classifier stores an order and a rate constant whenever it
    returns. *)
Lemma stored_kinetics_inv (a : Voltammetry_CA F) (k : option Z * option (pynum F)) :
  stored_kinetics regression a = Returns k ->
  exists (o : Z) (r : pynum F), k = (Some o, Some r) /\ (o = 1 \/ o = 2).
Proof.
  unfold stored_kinetics, _analyze_reaction_kinetics.
  destruct (_analyze_best_linear_fit _ _ _ (map flog _)) as [f1|e1];
    cbn [bind]; [|discriminate].
  destruct (_analyze_best_linear_fit _ _ _ _) as [f2|e2]; cbn [bind]; [|discriminate].
  destruct (fgt _ _); cbn; intros E; injection E as <-;
    eexists; eexists; (split; [reflexivity|]); auto.
Qed.

(** [analyze] in terms of what the two steps store on the object it is
    given: the classifier reads nothing the first step assigns. *)
Lemma analyze_as_stored (o : CA_object F) :
  analyze regression o
  = match stored_diffusion regression (attributes o) with
    | Raises e => (o, Abrupt (Known e))
    | Returns d =>
        match stored_kinetics regression (attributes o) with
        | Raises e =>
            ({| attributes := set_diffusion_coefficient d (attributes o);
                reaction_kinetics := reaction_kinetics o |},
             Abrupt (Known e))
        | Returns (Some ord, Some r) =>
            ({| attributes :=
                  set_kinetics ord r (set_diffusion_coefficient d (attributes o));
                reaction_kinetics := PyNone |},
             Normal)
        | Returns _ =>
            ({| attributes := set_diffusion_coefficient d (attributes o);
                reaction_kinetics := PyNone |},
             Normal)
        end
    end.
Proof.
  unfold analyze. rewrite diffusion_coefficient_as_stored.
  destruct (stored_diffusion regression (attributes o)) as [d|e]; cbn [bind];
    [|reflexivity].
  rewrite reaction_kinetics_as_stored.
  rewrite (stored_kinetics_reads regression
             (set_diffusion_coefficient d (attributes o)) (attributes o))
    by reflexivity.
  destruct (stored_kinetics regression (attributes o)) as [[[ord|] [r|]]|e];
    reflexivity.
Qed.

Lemma analyze_normal_inv (o o' : CA_object F) :
  analyze regression o = (o', Normal) ->
  exists (d : option F) (ord : Z) (r : pynum F),
    stored_diffusion regression (attributes o) = Returns d
    /\ stored_kinetics regression (attributes o) = Returns (Some ord, Some r)
    /\ (ord = 1 \/ ord = 2)
    /\ o' = {| attributes :=
                 set_kinetics ord r (set_diffusion_coefficient d (attributes o));
               reaction_kinetics := PyNone |}.
Proof.
  rewrite analyze_as_stored.
  destruct (stored_diffusion regression (attributes o)) as [d|e]; [|discriminate].
  destruct (stored_kinetics regression (attributes o)) as [k|e] eqn:Ek;
    [|discriminate].
  destruct (stored_kinetics_inv _ _ Ek) as (ord & r & -> & Hord).
  intros E. injection E as <-.
  exists d, ord, r. repeat split; assumption.
Qed.

Lemma stored_diffusion_is_some (a : Voltammetry_CA F) (d : option F) :
  stored_diffusion regression a = Returns d -> exists v, d = Some v.
Proof.
  unfold stored_diffusion, _calculate_diffusion_coefficient.
  destruct (_analyze_best_linear_fit _ _ _ _) as [f|e]; cbn [bind]; [|discriminate].
  destruct (slope f) as [z|sl]; [destruct (feq _ _)|]; cbn;
    try discriminate; intros E; injection E as <-; eexists; reflexivity.
Qed.
End DriverFacts.

(** X13.  When [analyze] returns, the object holds the diffusion
    coefficient and the order and rate constant that the two steps compute
    from the object as it was given (the classifier does not depend on what
    the first step stored); [reaction_kinetics] holds [None], since the
    classifier returns nothing; and the series, the charges, the window size
    and the parameters are unchanged. *)
Theorem analyze_stores_both_results :
  forall (F : Type) (SF : Scalar F)
         (regression : list F -> list F -> outcome (F * F * F))
         (o o' : CA_object F),
    analyze regression o = (o', Normal) ->
    reaction_kinetics o' = PyNone
    /\ stored_diffusion regression (attributes o)
       = Returns (diffusion_coefficient (attributes o'))
    /\ stored_kinetics regression (attributes o)
       = Returns (reaction_order (attributes o'),
                  reaction_rate_constant (attributes o'))
    /\ (exists d, diffusion_coefficient (attributes o') = Some d)
    /\ (reaction_order (attributes o') = Some 1
        \/ reaction_order (attributes o') = Some 2)
    /\ np_time (attributes o') = np_time (attributes o)
    /\ np_current (attributes o') = np_current (attributes o)
    /\ cumulative_charge (attributes o') = cumulative_charge (attributes o)
    /\ window_size (attributes o') = window_size (attributes o)
    /\ number_of_electrons (attributes o') = number_of_electrons (attributes o)
    /\ area_of_active_material (attributes o')
       = area_of_active_material (attributes o)
    /\ concentration_of_active_material (attributes o')
       = concentration_of_active_material (attributes o).
Proof.
  intros F SF regression o o' E.
  apply analyze_normal_inv in E as (d & ord & r & Ed & Ek & Hord & ->).
  cbn. split; [reflexivity|]. split; [exact Ed|]. split; [exact Ek|].
  split; [exact (stored_diffusion_is_some regression _ _ Ed)|].
  split; [destruct Hord as [-> | ->]; auto|].
  repeat split.
Qed.

(** In binary64, with the model of scipy's routine, on a halving current. *)
Lemma analyze_stores_both_results_witness :
  exists o' : CA_object float,
    analyze linregress
      {| attributes := measurement [0; 1; 2; 3]%float [16; 8; 4; 2]%float 3 1
                                   1%float 1%float;
         reaction_kinetics := Unset |}
    = (o', Normal)
    /\ reaction_kinetics o' = PyNone
    /\ reaction_order (attributes o') = Some 1
    /\ (exists d, diffusion_coefficient (attributes o') = Some d).
Proof.
  destruct (analyze linregress
              {| attributes := measurement [0; 1; 2; 3]%float [16; 8; 4; 2]%float 3 1
                                           1%float 1%float;
                 reaction_kinetics := Unset |}) as [o' c] eqn:E.
  assert (Hc : c = Normal) by (vm_compute in E; injection E as _ <-; reflexivity).
  subst c. exists o'. split; [reflexivity|].
  destruct (analyze_stores_both_results float float_scalar linregress _ o' E)
    as (Hk & _ & _ & Hd & _).
  split; [exact Hk|]. split; [|exact Hd].
  vm_compute in E. injection E as <-. reflexivity.
Defined.

(** X14.  [analyze] is idempotent: on the object a returning call leaves,
    a second call returns and leaves the same object. *)
Theorem analyze_idempotent :
  forall (F : Type) (SF : Scalar F)
         (regression : list F -> list F -> outcome (F * F * F))
         (o o' : CA_object F),
    analyze regression o = (o', Normal) ->
    analyze regression o' = (o', Normal).
Proof.
  intros F SF regression o o' E.
  apply analyze_normal_inv in E as (d & ord & r & Ed & Ek & _ & ->).
  rewrite analyze_as_stored. cbn [attributes].
  rewrite (stored_diffusion_reads regression
             (set_kinetics ord r (set_diffusion_coefficient d (attributes o)))
             (attributes o)) by reflexivity.
  rewrite (stored_kinetics_reads regression
             (set_kinetics ord r (set_diffusion_coefficient d (attributes o)))
             (attributes o)) by reflexivity.
  rewrite Ed, Ek. reflexivity.
Qed.

Lemma analyze_idempotent_witness :
  exists o' : CA_object float,
    analyze linregress
      {| attributes := measurement [0; 1; 2; 3]%float [16; 8; 4; 2]%float 3 1
                                   1%float 1%float;
         reaction_kinetics := Unset |}
    = (o', Normal)
    /\ analyze linregress o' = (o', Normal).
Proof.
  destruct (analyze linregress
              {| attributes := measurement [0; 1; 2; 3]%float [16; 8; 4; 2]%float 3 1
                                           1%float 1%float;
                 reaction_kinetics := Unset |}) as [o' c] eqn:E.
  assert (Hc : c = Normal) by (vm_compute in E; injection E as _ <-; reflexivity).
  subst c. exists o'. split; [reflexivity|].
  exact (analyze_idempotent float float_scalar linregress _ o' E).
Defined.

(** X15.  How [analyze] fails.  It never raises a [TypeError].  When the
    first step raises, the object is left as it was.  When the first step
    returns and the classifier raises, [analyze] raises the classifier's
    exception and the object keeps the diffusion coefficient the first step
    stored, with no order, no rate constant and no [reaction_kinetics]
    assigned. *)
Theorem analyze_failure :
  forall (F : Type) (SF : Scalar F)
         (regression : list F -> list F -> outcome (F * F * F))
         (o : CA_object F),
    snd (analyze regression o) <> Abrupt TypeError
    /\ (forall e : exn,
           stored_diffusion regression (attributes o) = Raises e ->
           analyze regression o = (o, Abrupt (Known e)))
    /\ (forall (d : option F) (e : exn),
           stored_diffusion regression (attributes o) = Returns d ->
           stored_kinetics regression (attributes o) = Raises e ->
           analyze regression o
           = ({| attributes := set_diffusion_coefficient d (attributes o);
                 reaction_kinetics := reaction_kinetics o |},
              Abrupt (Known e)))
    /\ (forall (o' : CA_object F) (e : py_exception),
           analyze regression o = (o', Abrupt e) ->
           exists e0 : exn,
             e = Known e0
             /\ (stored_diffusion regression (attributes o) = Raises e0
                 \/ stored_kinetics regression (attributes o) = Raises e0)).
Proof.
  intros F SF regression o. rewrite analyze_as_stored.
  destruct (stored_diffusion regression (attributes o)) as [d|e1].
  - destruct (stored_kinetics regression (attributes o)) as [[[ord|] [r|]]|e2];
      cbn [snd]; (split; [discriminate|]);
      (split; [intros e Habs; discriminate|]);
      (split; [intros d' e Ed Ek; try discriminate;
               injection Ed as <-; injection Ek as <-; reflexivity|]);
      intros o' e E; try discriminate.
    injection E as _ <-. exists e2. split; [reflexivity | right; reflexivity].
  - cbn [snd]. split; [discriminate|].
    split; [intros e E; injection E as <-; reflexivity|].
    split; [intros d e Habs; discriminate|].
    intros o' e E. injection E as _ <-.
    exists e1. split; [reflexivity | left; reflexivity].
Qed.

(** In binary64, with the model of scipy's routine: on the times
    [[0, -1, -1]] the abscissae of the first step are NaN and it stores
    [0]; the classifier's abscissae are identical and the routine raises. *)
Lemma analyze_failure_witness :
  analyze linregress
    {| attributes := measurement [0; -1; -1]%float [5; 3; 2]%float 2 1 1%float 1%float;
       reaction_kinetics := Unset |}
  = ({| attributes :=
          set_diffusion_coefficient (Some 0%float)
            (measurement [0; -1; -1]%float [5; 3; 2]%float 2 1 1%float 1%float);
        reaction_kinetics := Unset |},
     Abrupt (Known (ValueError
        "Cannot calculate a linear regression if all x values are identical"))).
Proof.
  apply (proj1 (proj2 (proj2
           (analyze_failure float float_scalar linregress
              {| attributes := measurement [0; -1; -1]%float [5; 3; 2]%float 2 1
                                           1%float 1%float;
                 reaction_kinetics := Unset |})))).
  - vm_compute. reflexivity.
  - vm_compute. reflexivity.
Defined.

(** X16.  [perform_all_actions] never returns.  It calls [plot] with two
    positional arguments and a keyword, and [plot] is declared with [self]
    alone: when [analyze] returns, the call of [plot] raises a [TypeError],
    after the object has received the results of the analysis;
    [save_data] is never reached.  When [analyze] raises, so does
    [perform_all_actions], with the same exception and the same object. *)
Theorem perform_all_actions_never_returns :
  forall (F : Type) (SF : Scalar F)
         (regression : list F -> list F -> outcome (F * F * F))
         (o : CA_object F) (save_dir : string) (plots : list string)
         (optional_name : option string),
    snd (perform_all_actions regression o save_dir plots optional_name) <> Normal
    /\ (forall o' : CA_object F,
           analyze regression o = (o', Normal) ->
           perform_all_actions regression o save_dir plots optional_name
           = (o', Abrupt TypeError))
    /\ (forall (o' : CA_object F) (e : py_exception),
           analyze regression o = (o', Abrupt e) ->
           perform_all_actions regression o save_dir plots optional_name
           = (o', Abrupt e)).
Proof.
  intros F SF regression o save_dir plots optional_name.
  unfold perform_all_actions.
  destruct (analyze regression o) as [o1 [|e1]]; cbn.
  - split; [discriminate|]. split.
    + intros o' E. injection E as <-. reflexivity.
    + intros o' e E. discriminate.
  - split; [discriminate|]. split.
    + intros o' E. discriminate.
    + intros o' e E. injection E as <- <-. reflexivity.
Qed.

(** ** The constructor and the classifier, further *)



(** X18.  With [>] a strict order, what the classifier stores is backed by
    a fitted window, except the fallback: order 1 is stored only when the
    first-order search selected a window, and the rate constant is then
    minus the slope fitted on that window; and the rate constant is an [int]
    only when it is the [0] of the initial dictionary, stored with order 2
    because neither search selected a window. *)
Theorem reaction_kinetics_backed_by_a_window :
  forall (F : Type) (SF : Scalar F)
         (gt_irrefl : forall a : F, fgt a a = false)
         (gt_trans : forall a b c : F,
             fgt a b = true -> fgt b c = true -> fgt a c = true)
         (regression : list F -> list F -> outcome (F * F * F))
         (self self' : Voltammetry_CA F),
    _analyze_reaction_kinetics regression self = Returns self' ->
    (reaction_order self' = Some 1 ->
     exists (s : Z) (sl ic rv : F),
       0 <= s < Z.of_nat (length (from1 (np_time self))) - window_size self + 1
       /\ regression
            (py_slice (from1 (np_time self)) s (s + window_size self))
            (py_slice (map flog (from1 (np_current self))) s (s + window_size self))
          = Returns (sl, ic, rv)
       /\ reaction_rate_constant self' = Some (NpFloat (fneg sl)))
    /\ (forall z : Z,
           reaction_rate_constant self' = Some (PyInt z) ->
           z = 0
           /\ reaction_order self' = Some 2
           /\ _analyze_best_linear_fit regression self (from1 (np_time self))
                (map flog (from1 (np_current self)))
              = Returns (initial_fit (window_size self))
           /\ _analyze_best_linear_fit regression self (from1 (np_time self))
                (map (fun i => fdiv (of_Z 1) i) (from1 (np_current self)))
              = Returns (initial_fit (window_size self))).
Proof.
  intros F SF gt_irrefl gt_trans regression self self'.
  unfold _analyze_reaction_kinetics.
  destruct (_analyze_best_linear_fit regression self _ (map flog _))
    as [f1|e1] eqn:E1; cbn [bind]; [|discriminate].
  destruct (_analyze_best_linear_fit regression self _
              (map (fun i => fdiv (of_Z 1) i) _)) as [f2|e2] eqn:E2;
    cbn [bind]; [|discriminate].
  pose proof (search_earliest_maximum regression self _ _ gt_irrefl gt_trans f1 E1)
    as H1.
  pose proof (search_earliest_maximum regression self _ _ gt_irrefl gt_trans f2 E2)
    as H2.
  assert (Hnot : f1 = initial_fit (window_size self) ->
                 fgt (value (r_squared f1)) (value (r_squared f2)) = false).
  { intros ->. cbn [value r_squared initial_fit].
    destruct H2 as [[-> _]|(t & _ & _ & Hpos & _)]; [apply gt_irrefl|].
    destruct (fgt (of_Z 0) (value (r_squared f2))) eqn:Hgt; [|reflexivity].
    rewrite <- (gt_irrefl (of_Z 0)). symmetry. exact (gt_trans _ _ _ Hgt Hpos). }
  destruct (fgt (value (r_squared f1)) (value (r_squared f2))) eqn:Hgt;
    intros E; injection E as <-; cbn; split.
  - intros _.
    destruct H1 as [[Hinit _]|(t & Ht & Et & _)];
      [discriminate (Hnot Hinit)|].
    apply window_fit_inv in Et as (sl & ic & rv & Er & ->).
    exists (Z.of_nat t), sl, ic, rv. split; [lia|]. split; [exact Er | reflexivity].
  - intros z Hz.
    destruct H1 as [[Hinit _]|(t & Ht & Et & _)];
      [discriminate (Hnot Hinit)|].
    apply window_fit_inv in Et as (sl & ic & rv & Er & ->). discriminate.
  - discriminate.
  - intros z Hz. injection Hz as Hz.
    assert (Hf2 : f2 = initial_fit (window_size self))
      by exact (search_int_slope regression self _ _ f2 z E2 Hz).
    subst f2. cbn in Hz. injection Hz as <-.
    split; [reflexivity|]. split; [reflexivity|]. split; [|reflexivity].
    destruct H1 as [[-> _]|(t & _ & _ & Hpos & _)]; [reflexivity|].
    cbn [value r_squared initial_fit] in Hgt. rewrite Hpos in Hgt. discriminate.
Qed.

(** In binary64, with the model of scipy's routine, on a halving current:
    order 1, backed by the window that starts at 0. *)
Lemma reaction_kinetics_backed_by_a_window_witness :
  exists (self' : Voltammetry_CA float) (s : Z) (sl ic rv : float),
    _analyze_reaction_kinetics
      linregress (measurement [0; 1; 2; 3]%float [16; 8; 4; 2]%float 3 1 1%float 1%float)
    = Returns self'
    /\ 0 <= s < 1
    /\ linregress (py_slice [1; 2; 3]%float s (s + 3))
                  (py_slice (map flog [8; 4; 2]%float) s (s + 3))
       = Returns (sl, ic, rv)
    /\ reaction_rate_constant self' = Some (NpFloat (fneg sl)).
Proof.
  destruct (_analyze_reaction_kinetics
              linregress
              (measurement [0; 1; 2; 3]%float [16; 8; 4; 2]%float 3 1 1%float 1%float))
    as [self'|e] eqn:E; [|vm_compute in E; discriminate].
  destruct (reaction_kinetics_backed_by_a_window
              float float_scalar float_gt_irrefl float_gt_trans linregress _ self' E)
    as [Hfirst _].
  destruct Hfirst as (s & sl & ic & rv & Hs & Er & Hk).
  { vm_compute in E. injection E as <-. reflexivity. }
  exists self', s, sl, ic, rv. split; [reflexivity|].
  split; [exact Hs|]. split; [exact Er | exact Hk].
Defined.
